(** * Frogger: the game-state transition engine of [src/main.ts]

    A shallow embedding of the reducer ([reduceState], [tick],
    [handleCollisions]), of the regenerator ([newGameState]) and of the
    geometry helpers ([torusWrap], [borderBlock], [moveBody]).

    Numbers.  Every numeric field of the TypeScript program has type
    [number], a binary64 float.  They are modelled by exact rationals [Q]:
    the velocities (-0.5, 2, ...) and the level multiplier (0.5, then +0.1
    per level) are not integers, so [Z] would not do.  Equality of numbers
    ([===]) is [Qeq_bool], never syntactic equality of fractions.

    Rounding is not modelled.  The model is exact for the whole-number
    fields (scores, lives, level, counts) and for the positions of level 1,
    which are multiples of 1/4; from level 2 on the multiplier and the lane
    positions are rounded by the program.  The properties below are
    therefore kept to what rounding cannot change: comparisons, whole-number
    arithmetic, closed bounds that a monotone rounding preserves, and single
    operations named as such ("the previous multiplier plus 0.1").  No
    closed form of the multiplier and no strict bound on a wrapped position
    is stated; where a sum of requested displacements appears, it is the
    exact sum, from which the program's result can differ in the last bit
    once positions are no longer multiples of 1/4.

    Randomness.  [tick] calls [Math.random()]; the draw is an explicit
    argument [u] of [tick] and [reduceState] (0 <= u < 1 in the program). *)

From Stdlib Require Import ZArith QArith Qround Lqa Lia.
From Stdlib Require Import Bool List String DecimalString.
Import ListNotations.

Local Open Scope Q_scope.

(** ** JavaScript numbers and operators *)

Definition number : Type := Q.

(** [a >= b], [a <= b], [a > b], [a === b] on numbers. *)
Definition num_ge (a b : number) : bool := Qle_bool b a.
Definition num_le (a b : number) : bool := Qle_bool a b.
Definition num_gt (a b : number) : bool := negb (Qle_bool a b).
Definition num_eq (a b : number) : bool := Qeq_bool a b.

(** [a % b]: the remainder has the sign of the dividend (truncated
    division). *)
Definition num_rem (a b : number) : number :=
  let q := a / b in
  a - b * inject_Z (Z.quot (Qnum q) (Zpos (Qden q))).

(** [Math.floor]. *)
Definition Math_floor (a : number) : Z := Qfloor a.

(** [String(i)] for an array index [i]. *)
Definition String_of_index (i : nat) : string :=
  NilEmpty.string_of_uint (Nat.to_uint i).

(** Truthiness of an array value: every object is truthy, the empty array
    included.  This is what [!arr] negates. *)
Definition array_truthy {A : Type} (l : list A) : bool := true.

(** ** Constants *)

Module Constants.
Definition CANVAS_WIDTH : number := 600.
Definition CANVAS_HEIGHT : number := 550.
Definition START_TIME : number := 0.
Definition VEHICLE_ROW_COUNT : nat := 4.
Definition PLANK_ROW_COUNT : nat := 4.
Definition CROCODILE_COUNT : nat := 1.
Definition FLY_COUNT : nat := 1.
Definition DESTINATION_COUNT : nat := 5.
Definition DESTINATION_HEIGHT : number := 50.
Definition FROG_START_X : number := 300.
Definition FROG_START_Y : number := 510.
Definition FLY_START_X : number := -100.
Definition FLY_START_Y : number := 15.
End Constants.

(** ** Entities *)

Inductive ViewType : Type :=
| frog_view | vehicle_view | plank_view | river_view | end_view
| block_view | crocodile_view | fly_view | crochead_view.

(** The string literal each view type stands for. *)
Definition viewTypeName (v : ViewType) : string :=
  match v with
  | frog_view => "frog"
  | vehicle_view => "vehicle"
  | plank_view => "plank"
  | river_view => "river"
  | end_view => "end"
  | block_view => "block"
  | crocodile_view => "crocodile"
  | fly_view => "fly"
  | crochead_view => "crochead"
  end%string.

Record Rectangle : Type := mkRectangle {
  rect_x : number;
  rect_y : number;
  rect_height : number;
  rect_width : number;
  rect_velX : number
}.

Record ObjectId : Type := mkObjectId {
  oid_id : string;
  oid_createTime : number
}.

Record Body : Type := mkBody {
  id : string;
  createTime : number;
  x : number;
  y : number;
  height : number;
  width : number;
  velX : number;
  viewType : ViewType
}.

(** The three events of the reducer. *)
Inductive Event : Type :=
| Tick (elapsed : number)
| Move (dx dy : number) (isScore : bool)
| Restart.

Record State : Type := mkState {
  time : number;
  frog : Body;
  vehicles : list Body;
  vehicles2 : list Body;
  vehicles3 : list Body;
  vehicles4 : list Body;
  planks : list Body;
  planks2 : list Body;
  planks3 : list Body;
  croc : list Body;
  crocHead : list Body;
  destinations : list Body;
  blocks : list Body;
  fly : Body;
  reachDestID : string;
  reachDestCount : number;
  destScore : number;
  fliesScore : number;
  moveScore : number;
  totalScore : number;
  highScore : number;
  level : number;
  levelPassed : bool;
  levelMultiplier : number;
  gameOver : bool;
  livesCount : number
}.

(** [createRectangle viewType oid rect]: the id is the view type's name
    followed by the object id. *)
Definition createRectangle (v : ViewType) (oid : ObjectId) (rect : Rectangle)
  : Body :=
  {| id := (viewTypeName v ++ oid_id oid)%string;
     createTime := oid_createTime oid;
     x := rect_x rect;
     y := rect_y rect;
     height := rect_height rect;
     width := rect_width rect;
     velX := rect_velX rect;
     viewType := v |}.

Definition createVehicle := createRectangle vehicle_view.
Definition createPlank := createRectangle plank_view.
Definition createEnd := createRectangle end_view.
Definition createBlock := createRectangle block_view.
Definition createCroc := createRectangle crocodile_view.
Definition createCrocHead := createRectangle crochead_view.

Definition createFrog : Body :=
  {| id := "frog";
     createTime := 0;
     x := Constants.CANVAS_WIDTH / 2;
     y := Constants.CANVAS_HEIGHT - 40;
     height := 30;
     width := 30;
     velX := 0;
     viewType := frog_view |}.

Definition createFly : Body :=
  {| id := "fly";
     createTime := 0;
     x := -100;
     y := 15;
     height := 20;
     width := 20;
     velX := 0;
     viewType := fly_view |}.

(** ** The starting layout *)

Definition y_vehicles : list number := [-140; -90; -240; -190].
Definition vel_vehicles : list number := [-(1#2); 2; -1; 3].
Definition y_planks : list number := [-340; -490; -390; -440].
Definition width_planks : list number := [100; 100; 200; 300].
Definition vel_planks : list number := [1; -2; 2; -1].
Definition x_dests : list number := [25; 150; 275; 400; 525].

(** [a[i]] on a table of numbers (every index used below is in range). *)
Definition at_index (a : list number) (i : nat) : number := nth i a 0.

(** [[...Array(n)].map((_, i) => f i)]. *)
Definition array_init {A : Type} (n : nat) (f : nat -> A) : list A :=
  map f (seq 0 n).

Definition startVehiclesAt (n : nat) (suffix : string) (x0 : number)
  : list Body :=
  array_init n (fun i =>
    createVehicle
      {| oid_id := (String_of_index i ++ suffix)%string;
         oid_createTime := Constants.START_TIME |}
      {| rect_x := x0;
         rect_y := Constants.CANVAS_HEIGHT + at_index y_vehicles i;
         rect_height := 30; rect_width := 50;
         rect_velX := at_index vel_vehicles i |}).

Definition startVehicles := startVehiclesAt Constants.VEHICLE_ROW_COUNT "a" 0.
Definition startVehicles2 := startVehiclesAt Constants.VEHICLE_ROW_COUNT "b" 150.
Definition startVehicles3 :=
  startVehiclesAt (Constants.VEHICLE_ROW_COUNT - 1) "c" 300.
Definition startVehicles4 :=
  startVehiclesAt (Constants.VEHICLE_ROW_COUNT - 3) "d" 450.

Definition startPlanksAt (n : nat) (suffix : string) (x0 : number)
  : list Body :=
  array_init n (fun i =>
    createPlank
      {| oid_id := (String_of_index i ++ suffix)%string;
         oid_createTime := Constants.START_TIME |}
      {| rect_x := x0;
         rect_y := Constants.CANVAS_HEIGHT + at_index y_planks i;
         rect_height := 30; rect_width := at_index width_planks i;
         rect_velX := at_index vel_planks i |}).

Definition startPlanks := startPlanksAt Constants.PLANK_ROW_COUNT "a" 0.
Definition startPlanks2 := startPlanksAt (Constants.PLANK_ROW_COUNT - 2) "b" 200.
Definition startPlanks3 := startPlanksAt (Constants.PLANK_ROW_COUNT - 2) "c" 400.

Definition startCroc : list Body :=
  array_init Constants.CROCODILE_COUNT (fun i =>
    createCroc
      {| oid_id := String_of_index i;
         oid_createTime := Constants.START_TIME |}
      {| rect_x := 300;
         rect_y := Constants.CANVAS_HEIGHT + at_index y_planks 2;
         rect_height := 30; rect_width := at_index width_planks 2;
         rect_velX := at_index vel_planks 2 |}).

Definition startCrocHead : list Body :=
  array_init Constants.CROCODILE_COUNT (fun i =>
    createCrocHead
      {| oid_id := String_of_index i;
         oid_createTime := Constants.START_TIME |}
      {| rect_x := 480;
         rect_y := Constants.CANVAS_HEIGHT + at_index y_planks 2;
         rect_height := 30; rect_width := 50;
         rect_velX := at_index vel_planks 2 |}).

Definition startDest : list Body :=
  array_init Constants.DESTINATION_COUNT (fun i =>
    createEnd
      {| oid_id := String_of_index i;
         oid_createTime := Constants.START_TIME |}
      {| rect_x := at_index x_dests i; rect_y := 2;
         rect_height := 48; rect_width := 60; rect_velX := 0 |}).

Definition startBlocks : list Body :=
  array_init Constants.DESTINATION_COUNT (fun i =>
    createBlock
      {| oid_id := String_of_index i;
         oid_createTime := Constants.START_TIME |}
      {| rect_x := at_index x_dests i; rect_y := 2;
         rect_height := 48; rect_width := 60; rect_velX := 0 |}).


(** ** Geometry *)

(** [torusWrap]: wraps a position around the left and right canvas edges. *)
Definition torusWrap (c : number) : number :=
  let w := Constants.CANVAS_WIDTH in
  let wrap := fun v : number =>
    if num_le v 0 then v + w else if num_ge v w then v - w else v in
  wrap c.

(** [borderBlock]: pushes a vertical position back by one row at the top and
    bottom canvas edges. *)
Definition borderBlock (c : number) : number :=
  let s := Constants.CANVAS_HEIGHT in
  let block := fun v : number =>
    if num_le v 0 then v + 50 else if num_ge v s then v - 50 else v in
  block c.

(** [moveBody o s]: one tick of motion for the entity [o]. *)
Definition moveBody (o : Body) (s : State) : Body :=
  {| id := id o;
     createTime := createTime o;
     x := torusWrap (x o + velX o * levelMultiplier s);
     y := borderBlock (y o);
     height := height o;
     width := width o;
     velX := velX o;
     viewType := viewType o |}.

(** ** Collision detection

    The constants declared at the head of [handleCollisions], one
    definition each. *)

Definition bodiesCollided (a b : Body) : bool :=
  num_ge (x a + width a) (x b) && num_le (x a) (x b + width b)
  && num_le (y a + height a) (y b + height b) && num_ge (y a) (y b).

Definition collidedPlanks (s : State) : list Body :=
  flat_map (fun p => filter (fun p => bodiesCollided (frog s) p) p)
           [planks s; planks2 s; planks3 s; croc s].

Definition collidedVehicle (s : State) : list Body :=
  flat_map (fun v => filter (fun v => bodiesCollided (frog s) v) v)
           [vehicles s; vehicles2 s; vehicles3 s; vehicles4 s].

Definition collidedSides (s : State) : bool :=
  num_ge (x (frog s)) Constants.CANVAS_WIDTH || num_le (x (frog s)) 0.

Definition collidedRiver (s : State) : bool :=
  num_ge (y (frog s)) 50 && num_le (y (frog s)) 250
  && (List.length (collidedPlanks s) <=? 0)%nat.

Definition collidedEnd (s : State) : list Body :=
  filter (fun d => bodiesCollided (frog s) d) (destinations s).

Definition collidedCrocHead (s : State) : list Body :=
  filter (fun c => bodiesCollided (frog s) c) (crocHead s).

Definition collidedFinalZone (s : State) : bool :=
  num_le (y (frog s)) 50 && (List.length (collidedEnd s) <=? 0)%nat.

Definition collidedBlocks (s : State) : list Body :=
  filter (fun b => bodiesCollided (frog s) b) (blocks s).

Definition collidedFly (s : State) : bool :=
  bodiesCollided (fly s) (frog s).

Definition collidedDeath (s : State) : bool :=
  (0 <? List.length (collidedVehicle s))%nat || collidedSides s
  || collidedRiver s || (0 <? List.length (collidedCrocHead s))%nat.

(** [l[0].velX] and [l[0].id], read only where [l] is not empty. *)
Definition head_velX (l : list Body) : number :=
  match l with b :: _ => velX b | [] => 0 end.

Definition head_id (l : list Body) : string :=
  match l with b :: _ => id b | [] => ""%string end.

(** ** Collision resolution *)

(** [{...b, y: b.y - 100}]: a goal zone moved off the top of the field. *)
Definition shiftedUp (b : Body) : Body :=
  {| id := id b; createTime := createTime b;
     x := x b; y := y b - 100;
     height := height b; width := width b;
     velX := velX b; viewType := viewType b |}.

Definition handleCollisions (s : State) : State :=
  {| time := time s;
     frog :=
       {| id := id (frog s);
          createTime := createTime (frog s);
          x := if (0 <? List.length (collidedEnd s))%nat || collidedDeath s
               then Constants.FROG_START_X else x (frog s);
          y := if (0 <? List.length (collidedEnd s))%nat || collidedDeath s
               then Constants.FROG_START_Y
               else if collidedFinalZone s
                       || (0 <? List.length (collidedBlocks s))%nat
                    then y (frog s) + 50 else y (frog s);
          height := height (frog s);
          width := width (frog s);
          velX := if (0 <? List.length (collidedPlanks s))%nat
                  then head_velX (collidedPlanks s) else 0;
          viewType := viewType (frog s) |};
     vehicles := vehicles s;
     vehicles2 := vehicles2 s;
     vehicles3 := vehicles3 s;
     vehicles4 := vehicles4 s;
     planks := planks s;
     planks2 := planks2 s;
     planks3 := planks3 s;
     croc := croc s;
     crocHead := crocHead s;
     destinations :=
       map (fun b =>
              if String.eqb (id b) (reachDestID s)
              then shiftedUp b else b)
           (destinations s);
     blocks := blocks s;
     fly :=
       {| id := id (fly s);
          createTime := createTime (fly s);
          x := if collidedFly s then Constants.FLY_START_X else x (fly s);
          y := if collidedFly s then Constants.FLY_START_Y else y (fly s);
          height := height (fly s);
          width := width (fly s);
          velX := velX (fly s);
          viewType := viewType (fly s) |};
     reachDestID := if (0 <? List.length (collidedEnd s))%nat
                    then head_id (collidedEnd s) else ""%string;
     reachDestCount := if (0 <? List.length (collidedEnd s))%nat
                       then reachDestCount s + 1 else reachDestCount s;
     destScore := if (0 <? List.length (collidedEnd s))%nat
                  then destScore s + 100 else destScore s;
     fliesScore := if collidedFly s && negb (array_truthy (collidedBlocks s))
                   then fliesScore s + 50 else fliesScore s;
     moveScore := moveScore s;
     totalScore := destScore s + fliesScore s + moveScore s;
     highScore := if num_ge (totalScore s) (highScore s)
                  then totalScore s else highScore s;
     level := level s;
     levelPassed :=
       if num_eq (reachDestCount s) (inject_Z (Z.of_nat Constants.DESTINATION_COUNT))
       then true else false;
     levelMultiplier := levelMultiplier s;
     gameOver := if num_eq (livesCount s) 0 then true else false;
     livesCount := if collidedDeath s then livesCount s - 1 else livesCount s
  |}.

(** ** The initial state *)

Definition initialState : State :=
  {| time := 0;
     frog := createFrog;
     vehicles := startVehicles;
     vehicles2 := startVehicles2;
     vehicles3 := startVehicles3;
     vehicles4 := startVehicles4;
     planks := startPlanks;
     planks2 := startPlanks2;
     planks3 := startPlanks3;
     croc := startCroc;
     crocHead := startCrocHead;
     destinations := startDest;
     blocks := startBlocks;
     fly := createFly;
     reachDestID := "";
     reachDestCount := 0;
     destScore := 0;
     fliesScore := 0;
     moveScore := 0;
     totalScore := 0;
     highScore := 0;
     level := 1;
     levelPassed := false;
     levelMultiplier := 1#2;
     gameOver := false;
     livesCount := 3 |}.

(** ** The reducer *)

(** The state [tick] hands to [handleCollisions]: every lane entity and the
    frog moved, the fly respawned when the tick counter is a positive
    multiple of 500 (at the goal chosen by the draw [u]), the counter set. *)
Definition tickMoved (u : number) (s : State) (elapsed : number) : State :=
  {| time := elapsed;
     frog := moveBody (frog s) s;
     vehicles := map (fun b => moveBody b s) (vehicles s);
     vehicles2 := map (fun b => moveBody b s) (vehicles2 s);
     vehicles3 := map (fun b => moveBody b s) (vehicles3 s);
     vehicles4 := map (fun b => moveBody b s) (vehicles4 s);
     planks := map (fun b => moveBody b s) (planks s);
     planks2 := map (fun b => moveBody b s) (planks2 s);
     planks3 := map (fun b => moveBody b s) (planks3 s);
     croc := map (fun b => moveBody b s) (croc s);
     crocHead := map (fun b => moveBody b s) (crocHead s);
     destinations := destinations s;
     blocks := blocks s;
     fly :=
       {| id := id (fly s);
          createTime := createTime (fly s);
          x := if num_eq (num_rem (time s) 500) 0 && negb (num_eq (time s) 0)
               then at_index x_dests
                      (Z.to_nat
                         (Math_floor
                            (u * inject_Z (Z.of_nat Constants.DESTINATION_COUNT))))
                    + 20
               else x (fly s);
          y := y (fly s);
          height := height (fly s);
          width := width (fly s);
          velX := velX (fly s);
          viewType := viewType (fly s) |};
     reachDestID := reachDestID s;
     reachDestCount := reachDestCount s;
     destScore := destScore s;
     fliesScore := fliesScore s;
     moveScore := moveScore s;
     totalScore := totalScore s;
     highScore := highScore s;
     level := level s;
     levelPassed := levelPassed s;
     levelMultiplier := levelMultiplier s;
     gameOver := gameOver s;
     livesCount := livesCount s |}.

Definition tick (u : number) (s : State) (elapsed : number) : State :=
  handleCollisions (tickMoved u s elapsed).

Definition reduceState (u : number) (s : State) (e : Event) : State :=
  match e with
  | Move dx dy isScore =>
      {| time := time s;
         frog :=
           {| id := id (frog s);
              createTime := createTime (frog s);
              x := x (frog s) + dx;
              y := y (frog s) + dy;
              height := height (frog s);
              width := width (frog s);
              velX := velX (frog s);
              viewType := viewType (frog s) |};
         vehicles := vehicles s;
         vehicles2 := vehicles2 s;
         vehicles3 := vehicles3 s;
         vehicles4 := vehicles4 s;
         planks := planks s;
         planks2 := planks2 s;
         planks3 := planks3 s;
         croc := croc s;
         crocHead := crocHead s;
         destinations := destinations s;
         blocks := blocks s;
         fly := fly s;
         reachDestID := reachDestID s;
         reachDestCount := reachDestCount s;
         destScore := destScore s;
         fliesScore := fliesScore s;
         moveScore := if isScore && num_gt (y (frog s)) 100
                      then moveScore s + 10 else moveScore s;
         totalScore := totalScore s;
         highScore := highScore s;
         level := level s;
         levelPassed := levelPassed s;
         levelMultiplier := levelMultiplier s;
         gameOver := gameOver s;
         livesCount := livesCount s |}
  | Restart =>
      {| time := time s;
         frog := frog s;
         vehicles := vehicles s;
         vehicles2 := vehicles2 s;
         vehicles3 := vehicles3 s;
         vehicles4 := vehicles4 s;
         planks := planks s;
         planks2 := planks2 s;
         planks3 := planks3 s;
         croc := croc s;
         crocHead := crocHead s;
         destinations := destinations s;
         blocks := blocks s;
         fly := fly s;
         reachDestID := reachDestID s;
         reachDestCount := reachDestCount s;
         destScore := destScore s;
         fliesScore := fliesScore s;
         moveScore := moveScore s;
         totalScore := totalScore s;
         highScore := highScore s;
         level := level s;
         levelPassed := levelPassed s;
         levelMultiplier := levelMultiplier s;
         gameOver := true;
         livesCount := livesCount s |}
  | Tick elapsed => tick u s elapsed
  end.

(** ** The regenerator *)

Definition newGameState (s : State) : State :=
  if gameOver s then
    {| time := 0;
       frog := createFrog;
       vehicles := startVehicles;
       vehicles2 := startVehicles2;
       vehicles3 := startVehicles3;
       vehicles4 := startVehicles4;
       planks := startPlanks;
       planks2 := startPlanks2;
       planks3 := startPlanks3;
       croc := startCroc;
       crocHead := startCrocHead;
       destinations := startDest;
       blocks := startBlocks;
       fly := createFly;
       reachDestID := "";
       reachDestCount := 0;
       destScore := 0;
       fliesScore := 0;
       moveScore := 0;
       totalScore := 0;
       highScore := highScore s;
       level := 1;
       levelPassed := false;
       levelMultiplier := 1#2;
       gameOver := false;
       livesCount := 3 |}
  else if levelPassed s then
    {| time := 0;
       frog := createFrog;
       vehicles := startVehicles;
       vehicles2 := startVehicles2;
       vehicles3 := startVehicles3;
       vehicles4 := startVehicles4;
       planks := startPlanks;
       planks2 := startPlanks2;
       planks3 := startPlanks3;
       croc := startCroc;
       crocHead := startCrocHead;
       destinations := startDest;
       blocks := startBlocks;
       fly := createFly;
       reachDestID := "";
       reachDestCount := 0;
       destScore := destScore s;
       fliesScore := fliesScore s;
       moveScore := moveScore s;
       totalScore := totalScore s;
       highScore := highScore s;
       level := level s + 1;
       levelPassed := false;
       levelMultiplier := levelMultiplier s + (1#10);
       gameOver := false;
       livesCount := livesCount s |}
  else s.

(** ** Event streams

    [run] is [scan(reduceState, s)] read at the end of a finite stream; each
    event comes with the random draw available when it is reduced. *)
Definition run (s : State) (es : list (number * Event)) : State :=
  fold_left (fun acc ue => reduceState (fst ue) acc (snd ue)) es s.

(** The key-press events wired in [main]. *)
Definition moveUp : Event := Move 0 (-50) true.
Definition moveDown : Event := Move 0 50 false.
Definition moveLeft : Event := Move (-50) 0 false.
Definition moveRight : Event := Move 50 0 false.

(** [n] copies of one event, none of them using the random draw. *)
Definition presses (n : nat) (e : Event) : list (number * Event) :=
  repeat (0, e) n.

(** The states a game session goes through, as [startGame] and [updateView]
    drive it: events are reduced only while neither [gameOver] nor
    [levelPassed] is set (the subscription is dropped as soon as one is), and
    the next stream starts from [newGameState]. *)
Inductive sessionState : State -> Prop :=
| session_start : sessionState initialState
| session_event (u : number) (s : State) (e : Event) :
    sessionState s -> gameOver s = false -> levelPassed s = false ->
    sessionState (reduceState u s e)
| session_regenerate (s : State) :
    sessionState s -> gameOver s || levelPassed s = true ->
    sessionState (newGameState s).


(** A stream is live from [s] when no state before its last event has a
    terminal flag set: the subscription of [startGame] survives it. *)
Fixpoint sessionLive (s : State) (es : list (number * Event)) : bool :=
  match es with
  | [] => true
  | ue :: es' =>
      negb (gameOver s) && negb (levelPassed s)
      && sessionLive (reduceState (fst ue) s (snd ue)) es'
  end.

(** What a session preserves: the lives are a whole number from -1 to the
    starting three, and not negative while the game-over flag is down. *)
Definition livesInvariant (s : State) : Prop :=
  exists n : Z,
    livesCount s == inject_Z n /\ (-1 <= n <= 3)%Z
    /\ (gameOver s = false -> (0 <= n)%Z).

(** A stream of key presses only: every event is a [Move]. *)
Definition onlyMoves (es : list (number * Event)) : bool :=
  forallb (fun ue => match snd ue with Move _ _ _ => true | _ => false end)
          es.

(** ** Scenarios used as concrete inputs *)

(** One step up from the start row, onto the second road lane, then a tick:
    the vehicle that starts at x = 300 in that lane is still under the
    frog. *)
Definition intoTraffic (t : number) : list (number * Event) :=
  [(0, moveUp); (0, Tick t)].

Definition threeDeaths : list (number * Event) :=
  intoTraffic 0 ++ intoTraffic 1 ++ intoTraffic 2.

Definition fourDeaths : list (number * Event) :=
  threeDeaths ++ intoTraffic 3.

(** Ten steps up reach the goal row; [sideways] then picks the goal zone. *)
Definition toGoal (sideways : list (number * Event)) (t : number)
  : list (number * Event) :=
  presses 10 moveUp ++ sideways ++ [(0, Tick t)].

Definition fourGoals : list (number * Event) :=
  toGoal [] 0 ++ toGoal (presses 5 moveLeft) 1
  ++ toGoal (presses 3 moveLeft) 2 ++ toGoal (presses 2 moveRight) 3.

Definition fiveGoals : list (number * Event) :=
  fourGoals ++ toGoal (presses 5 moveRight) 4.

(** The frog on the goal row over the fly, which a tick at counter 500 put
    into the first goal zone (draw 0). *)
Definition flyCatch : list (number * Event) :=
  [(0, Tick 500)] ++ presses 10 moveUp ++ presses 5 moveLeft.

(** ** Keyboard input

    [keyObservable] filters the key-down events of the document by key code,
    drops auto-repeats and maps what is left to one event of the reducer.
    Filters and maps act on each element on its own, so a stream is read
    here as what it emits for one key-down event. *)

Record KeyboardEvent : Type := mkKeyboardEvent {
  code : string;
  repeat_flag : bool
}.

Definition keyObservable (k : string) (result : Event) (ev : KeyboardEvent)
  : option Event :=
  if String.eqb (code ev) k then
    if negb (repeat_flag ev) then Some result else None
  else None.

Definition moveUp_stream := keyObservable "ArrowUp" moveUp.
Definition moveDown_stream := keyObservable "ArrowDown" moveDown.
Definition moveLeft_stream := keyObservable "ArrowLeft" moveLeft.
Definition moveRight_stream := keyObservable "ArrowRight" moveRight.
Definition restart_stream := keyObservable "KeyR" Restart.

Definition emitted (o : option Event) : list Event :=
  match o with Some e => [e] | None => [] end.

(** What the merged key streams of [startGame] emit for one key-down
    event, in merge order. *)
Definition keyEvents (ev : KeyboardEvent) : list Event :=
  emitted (moveUp_stream ev) ++ emitted (moveDown_stream ev)
  ++ emitted (moveLeft_stream ev) ++ emitted (moveRight_stream ev)
  ++ emitted (restart_stream ev).

(** ** Observations on states *)

(** The identifiers of every entity, collection by collection. *)
Definition entityIds (s : State) : list (list string) :=
  [ [id (frog s)]; [id (fly s)];
    map id (vehicles s); map id (vehicles2 s);
    map id (vehicles3 s); map id (vehicles4 s);
    map id (planks s); map id (planks2 s); map id (planks3 s);
    map id (croc s); map id (crocHead s);
    map id (destinations s); map id (blocks s) ].

(** The horizontal and vertical displacement a stream of key presses asks
    for. *)
Fixpoint requestedDx (es : list (number * Event)) : number :=
  match es with
  | [] => 0
  | (_, Move dx _ _) :: es' => dx + requestedDx es'
  | _ :: es' => requestedDx es'
  end.

Fixpoint requestedDy (es : list (number * Event)) : number :=
  match es with
  | [] => 0
  | (_, Move _ dy _) :: es' => dy + requestedDy es'
  | _ :: es' => requestedDy es'
  end.

(** What a session preserves of the scores: the fly score stays 0, the
    other accumulators are not negative, and the total is between 0 and the
    sum of the accumulators. *)
Definition scoreInvariant (s : State) : Prop :=
  0 <= destScore s /\ fliesScore s == 0 /\ 0 <= moveScore s
  /\ 0 <= totalScore s
  /\ totalScore s <= destScore s + fliesScore s + moveScore s.

(** What a session preserves of the level: a whole number from 1 on, with
    the multiplier at its base 0.5 at level 1 and above it from level 2
    on. *)
Definition levelInvariant (s : State) : Prop :=
  exists n : Z,
    (1 <= n)%Z /\ level s == inject_Z n
    /\ (1#2) <= levelMultiplier s
    /\ (n = 1%Z -> levelMultiplier s == (1#2))
    /\ ((2 <= n)%Z -> (1#2) < levelMultiplier s).

(** What a session preserves of the goal count: a whole number from 0 to 6,
    at most 5 while [levelPassed] is down and at least 5 once it is up. *)
Definition goalCountInvariant (s : State) : Prop :=
  exists n : Z,
    reachDestCount s == inject_Z n /\ (0 <= n <= 6)%Z
    /\ (levelPassed s = false -> (n <= 5)%Z)
    /\ (levelPassed s = true -> (5 <= n)%Z).

(** The state the regenerator builds after a game over: the initial state
    but for the high score. *)
Definition freshGame (best : number) : State :=
  {| time := 0;
     frog := createFrog;
     vehicles := startVehicles;
     vehicles2 := startVehicles2;
     vehicles3 := startVehicles3;
     vehicles4 := startVehicles4;
     planks := startPlanks;
     planks2 := startPlanks2;
     planks3 := startPlanks3;
     croc := startCroc;
     crocHead := startCrocHead;
     destinations := startDest;
     blocks := startBlocks;
     fly := createFly;
     reachDestID := "";
     reachDestCount := 0;
     destScore := 0;
     fliesScore := 0;
     moveScore := 0;
     totalScore := 0;
     highScore := best;
     level := 1;
     levelPassed := false;
     levelMultiplier := 1#2;
     gameOver := false;
     livesCount := 3 |}.

(** [s] with the frog moved to ([fx], [fy]) and the movement score set to
    [ms]: the only fields a [Move] event writes. *)
Definition withFrogAt (s : State) (fx fy ms : number) : State :=
  {| time := time s;
     frog :=
       {| id := id (frog s);
          createTime := createTime (frog s);
          x := fx;
          y := fy;
          height := height (frog s);
          width := width (frog s);
          velX := velX (frog s);
          viewType := viewType (frog s) |};
     vehicles := vehicles s;
     vehicles2 := vehicles2 s;
     vehicles3 := vehicles3 s;
     vehicles4 := vehicles4 s;
     planks := planks s;
     planks2 := planks2 s;
     planks3 := planks3 s;
     croc := croc s;
     crocHead := crocHead s;
     destinations := destinations s;
     blocks := blocks s;
     fly := fly s;
     reachDestID := reachDestID s;
     reachDestCount := reachDestCount s;
     destScore := destScore s;
     fliesScore := fliesScore s;
     moveScore := ms;
     totalScore := totalScore s;
     highScore := highScore s;
     level := level s;
     levelPassed := levelPassed s;
     levelMultiplier := levelMultiplier s;
     gameOver := gameOver s;
     livesCount := livesCount s |}.

(** * Properties *)

(** ** Comparisons *)

Lemma num_eq_true (a b : number) : num_eq a b = true <-> a == b.
Proof. unfold num_eq. apply Qeq_bool_iff. Qed.

Lemma num_eq_false (a b : number) : num_eq a b = false <-> ~ a == b.
Proof.
  rewrite <- num_eq_true. destruct (num_eq a b); split; intro H;
    try reflexivity; try discriminate; try (intro; discriminate).
  exfalso. apply H. reflexivity.
Qed.

Lemma num_le_true (a b : number) : num_le a b = true <-> a <= b.
Proof. unfold num_le. apply Qle_bool_iff. Qed.

Lemma num_le_false (a b : number) : num_le a b = false <-> b < a.
Proof.
  unfold num_le. split; intro H.
  - apply Qnot_le_lt. intro Hle. apply Qle_bool_iff in Hle. congruence.
  - destruct (Qle_bool a b) eqn:E; [|reflexivity].
    apply Qle_bool_iff in E. exfalso. apply (Qlt_not_le _ _ H E).
Qed.

Lemma num_ge_true (a b : number) : num_ge a b = true <-> b <= a.
Proof. unfold num_ge. apply Qle_bool_iff. Qed.

Lemma num_ge_false (a b : number) : num_ge a b = false <-> a < b.
Proof. unfold num_ge. apply (num_le_false b a). Qed.

(** Case analysis on a comparison, leaving the matching order fact. *)
Ltac num_case c :=
  let E := fresh "E" in
  destruct c eqn:E;
  [ first [ apply num_le_true in E | apply num_ge_true in E
          | apply num_eq_true in E ]
  | first [ apply num_le_false in E | apply num_ge_false in E
          | apply num_eq_false in E ] ].

(** Splits a conjunction of closed facts and settles by evaluation those
    that are equations. *)
Ltac split_conj := repeat match goal with |- _ /\ _ => split end.
Ltac by_evaluation := cbv zeta; split_conj; try (vm_compute; reflexivity).

(** ** Streams and sessions *)

Lemma run_app (s : State) (es fs : list (number * Event)) :
  run s (es ++ fs) = run (run s es) fs.
Proof. unfold run. apply fold_left_app. Qed.

Lemma session_run (es : list (number * Event)) :
  forall s, sessionState s -> sessionLive s es = true ->
            sessionState (run s es).
Proof.
  induction es as [|[u e] es IH]; intros s Hs Hlive.
  - exact Hs.
  - simpl in Hlive.
    apply andb_prop in Hlive. destruct Hlive as [Hflags Hrest].
    apply andb_prop in Hflags. destruct Hflags as [Hgo Hlp].
    apply negb_true_iff in Hgo. apply negb_true_iff in Hlp.
    change (run s ((u, e) :: es)) with (run (reduceState u s e) es).
    apply IH; [|exact Hrest].
    apply session_event; assumption.
Qed.

(** ** Scores *)

(** C1, as stated, fails.  A scoring move from the initial state adds 10 to
    [moveScore] and leaves [totalScore] at 0; the tick on which the first
    goal is reached adds 100 to [destScore] while [totalScore] is the sum of
    the accumulators before that tick (90). *)
Lemma total_score_sum_counterexample :
  (let s' := reduceState 0 initialState moveUp in
   moveScore s' == 10 /\ totalScore s' == 0 /\
   ~ totalScore s' == destScore s' + fliesScore s' + moveScore s')
  /\
  (let s' := run initialState (toGoal [] 0) in
   destScore s' == 100 /\ moveScore s' == 90 /\ totalScore s' == 90 /\
   ~ totalScore s' == destScore s' + fliesScore s' + moveScore s').
Proof.
  by_evaluation; intro H; vm_compute in H; discriminate.
Qed.

(** C1 (amended): a tick sets [totalScore] to the sum of the three
    accumulators of the state it starts from, so a bonus enters the total
    one tick after it enters its accumulator; a move and a restart leave
    [totalScore] as it was. *)
Theorem total_score_after_transition (u : number) (s : State) (e : Event) :
  totalScore (reduceState u s e) =
  match e with
  | Tick _ => destScore s + fliesScore s + moveScore s
  | Move _ _ _ | Restart => totalScore s
  end.
Proof. destruct e; reflexivity. Qed.

(** C4, as stated, fails.  After one scoring move and one tick from the
    initial state the total is 10 and the high score still 0: the tick takes
    the maximum with the total of the state it starts from, not with the
    total it computes. *)
Lemma high_score_bound_counterexample :
  let s' := run initialState [(0, moveUp); (0, Tick 0)] in
  totalScore s' == 10 /\ highScore s' == 0 /\
  ~ totalScore s' <= highScore s'.
Proof.
  by_evaluation. intro H; vm_compute in H; apply H; reflexivity.
Qed.

(** C4 (amended): a tick sets [highScore] to the maximum of its previous
    value and the total score of the state the tick starts from; a move and
    a restart leave it unchanged; hence [highScore] never decreases across a
    transition and, after a tick, is at least the previous total.  The
    regenerator keeps it as well. *)
Theorem high_score_after_transition (u : number) (s : State) (e : Event) :
  highScore (reduceState u s e) =
    match e with
    | Tick _ => if num_ge (totalScore s) (highScore s)
                then totalScore s else highScore s
    | Move _ _ _ | Restart => highScore s
    end
  /\ highScore s <= highScore (reduceState u s e)
  /\ match e with
     | Tick _ => totalScore s <= highScore (reduceState u s e)
     | Move _ _ _ | Restart => True
     end
  /\ highScore (newGameState s) = highScore s.
Proof.
  split; [destruct e; reflexivity|].
  split; [|split].
  - destruct e; cbn; try apply Qle_refl.
    num_case (num_ge (totalScore s) (highScore s)); lra.
  - destruct e; cbn; try exact I.
    num_case (num_ge (totalScore s) (highScore s)); lra.
  - unfold newGameState.
    destruct (gameOver s); [reflexivity|].
    destruct (levelPassed s); reflexivity.
Qed.

(** ** Restart and the game-over flag *)

(** C9: a [Restart] event sets [gameOver] and copies every other field. *)
Theorem restart_only_sets_game_over (u : number) (s : State) :
  reduceState u s Restart =
  {| time := time s;
     frog := frog s;
     vehicles := vehicles s;
     vehicles2 := vehicles2 s;
     vehicles3 := vehicles3 s;
     vehicles4 := vehicles4 s;
     planks := planks s;
     planks2 := planks2 s;
     planks3 := planks3 s;
     croc := croc s;
     crocHead := crocHead s;
     destinations := destinations s;
     blocks := blocks s;
     fly := fly s;
     reachDestID := reachDestID s;
     reachDestCount := reachDestCount s;
     destScore := destScore s;
     fliesScore := fliesScore s;
     moveScore := moveScore s;
     totalScore := totalScore s;
     highScore := highScore s;
     level := level s;
     levelPassed := levelPassed s;
     levelMultiplier := levelMultiplier s;
     gameOver := true;
     livesCount := livesCount s |}
  /\ gameOver (reduceState u s Restart) = true.
Proof. split; reflexivity. Qed.

(** The flag a tick leaves is a function of the lives before the tick. *)
Lemma tick_gameOver (u : number) (s : State) (t : number) :
  gameOver (tick u s t) = num_eq (livesCount s) 0.
Proof. cbn. destruct (num_eq (livesCount s) 0); reflexivity. Qed.

(** C10: every tick recomputes [gameOver] from the lives before the tick
    and from nothing else.  The flag it leaves is the test
    [livesCount === 0] on the pre-tick state: false whenever the lives are
    not zero, even if the flag was set (by a restart request, say), and true
    whenever they are zero, even if the flag was down.  Two ticks from
    states with equal lives leave the same flag, whatever the rest of the
    states, the counters and the draws are. *)
Theorem tick_overwrites_game_over (u : number) (s : State) (t : number) :
  gameOver (reduceState u s (Tick t)) = num_eq (livesCount s) 0
  /\ (~ livesCount s == 0 -> gameOver (reduceState u s (Tick t)) = false)
  /\ (livesCount s == 0 -> gameOver (reduceState u s (Tick t)) = true)
  /\ (forall u' s' t',
        livesCount s' == livesCount s ->
        gameOver (reduceState u' s' (Tick t'))
        = gameOver (reduceState u s (Tick t))).
Proof.
  cbn [reduceState]. split_conj.
  - apply tick_gameOver.
  - intro Hlives. rewrite tick_gameOver. apply num_eq_false. exact Hlives.
  - intro Hlives. rewrite tick_gameOver. apply num_eq_true. exact Hlives.
  - intros u' s' t' Heq. rewrite !tick_gameOver. unfold num_eq.
    destruct (Qeq_bool (livesCount s) 0) eqn:E.
    + apply Qeq_bool_iff. apply Qeq_bool_iff in E. rewrite Heq. exact E.
    + apply num_eq_false. apply num_eq_false in E. rewrite Heq. exact E.
Qed.

(** C10 at the state a restart request leaves from the initial state (three
    lives, flag set: the next tick clears the flag) and at the state after
    the third death (no lives, flag down: the next tick sets it). *)
Lemma tick_overwrites_game_over_witness :
  (gameOver (reduceState 0 initialState Restart) = true
   /\ gameOver (reduceState 0 (reduceState 0 initialState Restart) (Tick 0))
      = false)
  /\ (gameOver (run initialState threeDeaths) = false
      /\ gameOver (reduceState 0 (run initialState threeDeaths) (Tick 3))
         = true).
Proof.
  destruct (tick_overwrites_game_over
              0 (reduceState 0 initialState Restart) 0) as [_ [Hclear _]].
  destruct (tick_overwrites_game_over 0 (run initialState threeDeaths) 3)
    as [_ [_ [Hset _]]].
  split; split.
  - reflexivity.
  - apply Hclear. intro H; vm_compute in H; discriminate.
  - vm_compute; reflexivity.
  - apply Hset. vm_compute; reflexivity.
Defined.

(** ** Wrap-around *)

Lemma torusWrap_cases (c : number) :
  (c <= 0 /\ torusWrap c = c + Constants.CANVAS_WIDTH)
  \/ (0 < c /\ Constants.CANVAS_WIDTH <= c
      /\ torusWrap c = c - Constants.CANVAS_WIDTH)
  \/ (0 < c /\ c < Constants.CANVAS_WIDTH /\ torusWrap c = c).
Proof.
  unfold torusWrap.
  num_case (num_le c 0); [left; split; [exact E|reflexivity]|].
  num_case (num_ge c Constants.CANVAS_WIDTH).
  - right; left. repeat split; assumption.
  - right; right. repeat split; assumption.
Qed.

(** C5, as stated, fails at the left edge: 0 is wrapped to the width itself,
    outside [0, width), and wrapping again gives 0 back, so the function is
    not idempotent at 0 although 0 is in range.  The right end 2 * width is
    wrapped to the width as well. *)
Lemma torusWrap_range_counterexample :
  - Constants.CANVAS_WIDTH <= 0 <= 2 * Constants.CANVAS_WIDTH
  /\ torusWrap 0 == Constants.CANVAS_WIDTH
  /\ ~ torusWrap 0 < Constants.CANVAS_WIDTH
  /\ ~ torusWrap (torusWrap 0) == torusWrap 0
  /\ torusWrap (2 * Constants.CANVAS_WIDTH) == Constants.CANVAS_WIDTH.
Proof.
  by_evaluation; try (vm_compute; discriminate);
    intro H; vm_compute in H; discriminate.
Qed.

(** C5 (amended): on [-width, 2 * width] the result lies in the closed
    range [0, width], the width included; it is the argument plus the width
    at or left of 0, the argument minus the width at or right of the width;
    and strictly inside the field, on (0, width), the function is the
    identity, hence idempotent there.  No strict upper bound is stated: the
    width is reached at 0 and at 2 * width, and in the program's rounded
    arithmetic also just left of 0, where a tiny negative position plus the
    width rounds to the width. *)
Theorem torusWrap_range (c : number) :
  - Constants.CANVAS_WIDTH <= c <= 2 * Constants.CANVAS_WIDTH ->
  0 <= torusWrap c <= Constants.CANVAS_WIDTH
  /\ (c <= 0 -> torusWrap c = c + Constants.CANVAS_WIDTH)
  /\ (Constants.CANVAS_WIDTH <= c ->
      torusWrap c = c - Constants.CANVAS_WIDTH)
  /\ (0 < c < Constants.CANVAS_WIDTH ->
      torusWrap c = c /\ torusWrap (torusWrap c) = torusWrap c).
Proof.
  intros [Hlo Hhi].
  unfold Constants.CANVAS_WIDTH in *.
  destruct (torusWrap_cases c) as [[H0 Hw]|[[H0 [H1 Hw]]|[H0 [H1 Hw]]]];
    unfold Constants.CANVAS_WIDTH in *; rewrite Hw.
  - split; [lra|]. split_conj; intros; try reflexivity; lra.
  - split; [lra|]. split_conj; intros; try reflexivity; lra.
  - split; [lra|]. split_conj; intros; try lra.
    rewrite Hw. split; reflexivity.
Qed.

(** C5 (amended) at a position left of the field and at one inside it. *)
Lemma torusWrap_range_witness :
  0 <= torusWrap (-25) <= Constants.CANVAS_WIDTH
  /\ torusWrap (torusWrap 120) = torusWrap 120.
Proof.
  split.
  - apply (torusWrap_range (-25)).
    split; vm_compute; discriminate.
  - apply (torusWrap_range 120).
    + split; vm_compute; discriminate.
    + split; vm_compute; reflexivity.
Defined.

(** ** Lives *)

Lemma tick_livesCount (u : number) (s : State) (t : number) :
  livesCount (tick u s t) =
  if collidedDeath (tickMoved u s t) then livesCount s - 1 else livesCount s.
Proof. reflexivity. Qed.

Lemma inject_Z_pred (n : Z) (q : number) :
  q == inject_Z n -> q - 1 == inject_Z (n - 1).
Proof.
  intro H. rewrite H. unfold Z.sub.
  rewrite inject_Z_plus, inject_Z_opp. reflexivity.
Qed.

Lemma livesInvariant_event (u : number) (s : State) (e : Event) :
  livesInvariant s -> gameOver s = false ->
  livesInvariant (reduceState u s e).
Proof.
  intros [n [Hn [Hhi Hlo]]] Hgo. specialize (Hlo Hgo).
  destruct e as [t|dx dy sc|].
  - cbn [reduceState]. unfold livesInvariant.
    rewrite tick_gameOver, tick_livesCount.
    assert (Hzero : num_eq (livesCount s) 0 = false -> (n <> 0)%Z).
    { intros Hne Hn0. apply num_eq_false in Hne. apply Hne.
      rewrite Hn, Hn0. reflexivity. }
    destruct (collidedDeath (tickMoved u s t)).
    + exists (n - 1)%Z. split; [apply inject_Z_pred; exact Hn|].
      split; [lia|]. intro Hf. specialize (Hzero Hf). lia.
    + exists n. split; [exact Hn|]. split; [lia|]. intros _. lia.
  - exists n. cbn. split; [exact Hn|]. split; [lia|]. intros _. lia.
  - exists n. cbn. split; [exact Hn|]. split; [lia|]. discriminate.
Qed.

Lemma livesInvariant_regenerate (s : State) :
  livesInvariant s -> livesInvariant (newGameState s).
Proof.
  intros [n [Hn [Hhi Hlo]]]. unfold newGameState.
  destruct (gameOver s) eqn:Hgo.
  - exists 3%Z. cbn. split; [reflexivity|]. split; lia.
  - destruct (levelPassed s).
    + exists n. cbn. split; [exact Hn|]. split; [lia|]. intros _. auto.
    + exists n. rewrite Hgo. auto.
Qed.

Lemma session_livesInvariant (s : State) :
  sessionState s -> livesInvariant s.
Proof.
  induction 1 as [|u s e Hs IH Hgo Hlp|s Hs IH Hflag].
  - exists 3%Z. cbn. split; [reflexivity|]. split; lia.
  - apply livesInvariant_event; assumption.
  - apply livesInvariant_regenerate; assumption.
Qed.

(** C2, as stated, fails on both counts.  Stepping into traffic four times
    in a row is a live session from the initial state and ends with -1
    lives: the third death leaves 0 lives with the flag still down, so the
    stream goes on, and the fourth death decrements again on the very tick
    that raises the flag.  And the flag does not track the lives: after the
    third death the lives are 0 and [gameOver] is false, while a restart
    request on the initial state sets [gameOver] with 3 lives left. *)
Lemma lives_bound_counterexample :
  (sessionState (run initialState fourDeaths)
   /\ livesCount (run initialState fourDeaths) == -1
   /\ ~ 0 <= livesCount (run initialState fourDeaths))
  /\ (sessionState (run initialState threeDeaths)
      /\ livesCount (run initialState threeDeaths) == 0
      /\ gameOver (run initialState threeDeaths) = false)
  /\ (sessionState (reduceState 0 initialState Restart)
      /\ gameOver (reduceState 0 initialState Restart) = true
      /\ livesCount (reduceState 0 initialState Restart) == 3).
Proof.
  by_evaluation.
  - apply session_run; [apply session_start|vm_compute; reflexivity].
  - intro H; vm_compute in H; apply H; reflexivity.
  - apply session_run; [apply session_start|vm_compute; reflexivity].
  - apply session_event; [apply session_start|reflexivity|reflexivity].
Qed.

(** C2 (amended): in every state of a session from the initial state the
    lives are a whole number between -1 and 3, and are not negative as long
    as [gameOver] is false.  A tick raises [gameOver] exactly when the lives
    were zero before that tick; it leaves the lives alone when there is no
    death, and takes exactly one life on a death while at least one life is
    left (so the lives stay non-negative there).  A restart request raises
    [gameOver] whatever the lives.  What a death does to a frog without
    lives is left open here: the code decrements once more, against its own
    description. *)
Theorem lives_in_session (s : State) :
  sessionState s ->
  (exists n : Z, livesCount s == inject_Z n)
  /\ -1 <= livesCount s <= 3
  /\ (gameOver s = false -> 0 <= livesCount s)
  /\ (forall u t,
         (gameOver (reduceState u s (Tick t)) = true <-> livesCount s == 0)
         /\ (collidedDeath (tickMoved u s t) = false ->
             livesCount (reduceState u s (Tick t)) = livesCount s)
         /\ (collidedDeath (tickMoved u s t) = true -> 0 < livesCount s ->
             livesCount (reduceState u s (Tick t)) = livesCount s - 1
             /\ 0 <= livesCount (reduceState u s (Tick t))))
  /\ (forall u, gameOver (reduceState u s Restart) = true).
Proof.
  intro Hs. destruct (session_livesInvariant s Hs) as [n [Hn [Hrange Hlo]]].
  split; [exists n; exact Hn|].
  split; [|split; [|split]].
  - rewrite Hn. change (-1) with (inject_Z (-1)). change 3 with (inject_Z 3).
    rewrite <- !Zle_Qle. exact Hrange.
  - intro Hgo. rewrite Hn. change 0 with (inject_Z 0).
    rewrite <- Zle_Qle. auto.
  - intros u t. split_conj.
    + cbn [reduceState]. rewrite tick_gameOver. apply num_eq_true.
    + intro Hd. cbn [reduceState]. rewrite tick_livesCount, Hd. reflexivity.
    + intros Hd Hpos. cbn [reduceState]. rewrite tick_livesCount, Hd.
      split; [reflexivity|].
      assert (Hn1 : (1 <= n)%Z).
      { rewrite Hn in Hpos. change 0 with (inject_Z 0) in Hpos.
        rewrite <- Zlt_Qlt in Hpos. lia. }
      rewrite (inject_Z_pred n _ Hn). change 0 with (inject_Z 0).
      rewrite <- Zle_Qle. lia.
  - intro u. reflexivity.
Qed.

(** C2 (amended) at the state after the second death (1 life: the next
    death takes it and leaves 0) and at the state after the third death
    (0 lives, flag down: the next tick raises the flag). *)
Lemma lives_in_session_witness :
  (livesCount (reduceState 0 (run initialState (intoTraffic 0 ++ intoTraffic 1
                                                ++ [(0, moveUp)]))
                           (Tick 2))
   = livesCount (run initialState (intoTraffic 0 ++ intoTraffic 1
                                   ++ [(0, moveUp)])) - 1)
  /\ 0 <= livesCount (run initialState threeDeaths)
  /\ gameOver (reduceState 0 (run initialState threeDeaths) (Tick 3)) = true.
Proof.
  assert (Hs2 : sessionState
                  (run initialState
                       (intoTraffic 0 ++ intoTraffic 1 ++ [(0, moveUp)]))).
  { apply session_run; [apply session_start|vm_compute; reflexivity]. }
  assert (Hs3 : sessionState (run initialState threeDeaths)).
  { apply session_run; [apply session_start|vm_compute; reflexivity]. }
  destruct (lives_in_session _ Hs2) as [_ [_ [_ [Htick2 _]]]].
  destruct (lives_in_session (run initialState threeDeaths) Hs3)
    as [_ [_ [Hlo [Htick _]]]].
  split_conj.
  - apply (Htick2 0 2); vm_compute; reflexivity.
  - apply Hlo. vm_compute; reflexivity.
  - apply (Htick 0 3). vm_compute; reflexivity.
Defined.

(** ** The fly *)

(** [collidedBlocks] is an array, so [!collidedBlocks] is false and the
    guard of the fly bonus never holds: collision resolution hands
    [fliesScore] on unchanged, fly or no fly. *)
Lemma handleCollisions_fliesScore (s : State) :
  fliesScore (handleCollisions s) = fliesScore s.
Proof.
  cbn. unfold array_truthy. rewrite andb_false_r. reflexivity.
Qed.

(** C3 does not hold on the code.  The fly is respawned in the first goal
    zone by the tick that follows counter 500, the frog stands on it at
    (50, 10), the overlap is detected and the fly is sent back to its
    off-field position, yet [fliesScore] stays 0 instead of becoming 50. *)
Theorem fly_overlap_scores_nothing :
  let s := tickMoved 0 (run initialState flyCatch) 501 in
  reduceState 0 (run initialState flyCatch) (Tick 501) = handleCollisions s
  /\ x (frog s) == 50 /\ y (frog s) == 10
  /\ x (fly s) == 45 /\ y (fly s) == 15
  /\ collidedFly s = true
  /\ x (fly (handleCollisions s)) == Constants.FLY_START_X
  /\ fliesScore s == 0
  /\ fliesScore (handleCollisions s) == 0
  /\ ~ fliesScore (handleCollisions s) == fliesScore s + 50.
Proof.
  by_evaluation. intro H; vm_compute in H; discriminate.
Qed.

(** ** Goal zones *)

(** The goal zones after a collision resolution: those whose identifier is
    the one recorded by the previous resolution are moved up by 100. *)
Lemma handleCollisions_destinations (s : State) :
  destinations (handleCollisions s) =
  map (fun b => if String.eqb (id b) (reachDestID s) then shiftedUp b else b)
      (destinations s).
Proof. reflexivity. Qed.

Lemma handleCollisions_goal_fields (s : State) :
  reachDestID (handleCollisions s) =
    (if (0 <? List.length (collidedEnd s))%nat
     then head_id (collidedEnd s) else ""%string)
  /\ ((0 <? List.length (collidedEnd s))%nat = true ->
      reachDestCount (handleCollisions s) = reachDestCount s + 1)
  /\ ((0 <? List.length (collidedEnd s))%nat = true ->
      destScore (handleCollisions s) = destScore s + 100).
Proof.
  split; [reflexivity|].
  split; intro H; unfold handleCollisions;
    cbn [reachDestCount destScore]; rewrite H; reflexivity.
Qed.

Lemma collidedEnd_head (s : State) :
  collidedEnd s <> [] ->
  exists d rest,
    collidedEnd s = d :: rest
    /\ In d (destinations s) /\ bodiesCollided (frog s) d = true
    /\ (0 <? List.length (collidedEnd s))%nat = true.
Proof.
  intro Hne. destruct (collidedEnd s) as [|d rest] eqn:E; [congruence|].
  exists d, rest. split; [reflexivity|].
  assert (Hin : In d (collidedEnd s)) by (rewrite E; left; reflexivity).
  unfold collidedEnd in Hin. apply filter_In in Hin.
  destruct Hin as [Hin Hov]. split_conj; try assumption. reflexivity.
Qed.

(** C6, as stated, fails in its third part.  On the tick that puts the frog
    on the middle goal zone from the initial state, the zone is recorded
    ("end2"), the count and the goal score go up, but every goal zone and
    every block is where it was, at y = 2; the zone is moved off the field
    (y = -98) by the next tick. *)
Lemma goal_marker_shift_counterexample :
  let s := tickMoved 0 (run initialState (presses 10 moveUp)) 0 in
  collidedEnd s <> []
  /\ reachDestID (handleCollisions s) = "end2"%string
  /\ reachDestCount (handleCollisions s) == 1
  /\ destScore (handleCollisions s) == 100
  /\ destinations (handleCollisions s) = destinations s
  /\ blocks (handleCollisions s) = blocks s
  /\ map y (destinations (handleCollisions s)) = [2; 2; 2; 2; 2]
  /\ map y (blocks (handleCollisions s)) = [2; 2; 2; 2; 2]
  /\ map y (destinations (tick 0 (handleCollisions s) 1))
     = [2; 2; 2 - 100; 2; 2].
Proof.
  by_evaluation. vm_compute; discriminate.
Qed.

(** C6 (amended): when the frog overlaps a goal zone, collision resolution
    records the identifier of the first overlapped zone, adds one to the
    count and 100 to the goal score.  The zones it moves off the field are
    those named by the identifier recorded before this resolution; the zone
    reached now is moved by the next tick, and the blocks never move. *)
Theorem goal_reached_bookkeeping (s : State) :
  collidedEnd s <> [] ->
  exists d rest,
    collidedEnd s = d :: rest
    /\ In d (destinations s) /\ bodiesCollided (frog s) d = true
    /\ reachDestID (handleCollisions s) = id d
    /\ reachDestCount (handleCollisions s) = reachDestCount s + 1
    /\ destScore (handleCollisions s) = destScore s + 100
    /\ destinations (handleCollisions s) =
       map (fun b =>
              if String.eqb (id b) (reachDestID s) then shiftedUp b else b)
           (destinations s)
    /\ blocks (handleCollisions s) = blocks s
    /\ forall u t,
         destinations (tick u (handleCollisions s) t) =
         map (fun b => if String.eqb (id b) (id d) then shiftedUp b else b)
             (destinations (handleCollisions s)).
Proof.
  intro Hne.
  destruct (collidedEnd_head s Hne) as [d [rest [E [Hin [Hov Hlen]]]]].
  exists d, rest.
  assert (Hid : reachDestID (handleCollisions s) = id d).
  { rewrite (proj1 (handleCollisions_goal_fields s)), Hlen, E.
    reflexivity. }
  split_conj; try assumption; try reflexivity.
  - apply (proj1 (proj2 (handleCollisions_goal_fields s))). exact Hlen.
  - apply (proj2 (proj2 (handleCollisions_goal_fields s))). exact Hlen.
  - intros u t. unfold tick. rewrite handleCollisions_destinations.
    cbn [tickMoved destinations reachDestID]. rewrite Hid. reflexivity.
Qed.

(** C6 (amended) at the first goal reached from the initial state. *)
Lemma goal_reached_bookkeeping_witness :
  exists d rest,
    collidedEnd (tickMoved 0 (run initialState (presses 10 moveUp)) 0)
    = d :: rest
    /\ reachDestID
         (handleCollisions
            (tickMoved 0 (run initialState (presses 10 moveUp)) 0)) = id d.
Proof.
  destruct (goal_reached_bookkeeping
              (tickMoved 0 (run initialState (presses 10 moveUp)) 0))
    as [d [rest [E [_ [_ [Hid _]]]]]].
  - vm_compute; discriminate.
  - exists d, rest. split; assumption.
Defined.

(** ** Level completion *)

(** Key presses change neither the goal count nor the level, the multiplier,
    the lives or the flags. *)
Lemma run_moves_frame (es : list (number * Event)) :
  forall s, onlyMoves es = true ->
    reachDestCount (run s es) = reachDestCount s
    /\ level (run s es) = level s
    /\ levelMultiplier (run s es) = levelMultiplier s
    /\ livesCount (run s es) = livesCount s.
Proof.
  induction es as [|[u e] es IH]; intros s Hm.
  - repeat split.
  - simpl in Hm. apply andb_prop in Hm. destruct Hm as [He Hm].
    change (run s ((u, e) :: es)) with (run (reduceState u s e) es).
    destruct (IH (reduceState u s e) Hm) as [H1 [H2 [H3 H4]]].
    rewrite H1, H2, H3, H4.
    destruct e; try discriminate. repeat split.
Qed.

Lemma tick_levelPassed (u : number) (s : State) (t : number) :
  levelPassed (tick u s t) = num_eq (reachDestCount s) 5.
Proof.
  change (levelPassed (tick u s t))
    with (if num_eq (reachDestCount s) 5 then true else false).
  destruct (num_eq (reachDestCount s) 5); reflexivity.
Qed.

Lemma tick_frame (u : number) (s : State) (t : number) :
  level (tick u s t) = level s
  /\ levelMultiplier (tick u s t) = levelMultiplier s.
Proof. split; reflexivity. Qed.

(** The regenerator on a state whose level is passed and whose game is not
    over. *)
Lemma newGameState_levelPassed (s : State) :
  gameOver s = false -> levelPassed s = true ->
  level (newGameState s) = level s + 1
  /\ levelMultiplier (newGameState s) = levelMultiplier s + (1#10)
  /\ reachDestCount (newGameState s) = 0
  /\ destScore (newGameState s) = destScore s
  /\ fliesScore (newGameState s) = fliesScore s
  /\ moveScore (newGameState s) = moveScore s
  /\ totalScore (newGameState s) = totalScore s
  /\ livesCount (newGameState s) = livesCount s.
Proof.
  intros Hgo Hlp. unfold newGameState. rewrite Hgo, Hlp. repeat split.
Qed.

(** C7, as stated, fails.  The five crossings below are a live session from
    the initial state and reach the five goal zones one after the other
    (end2, end0, end1, end3, end4).  In the state the fifth crossing results
    in, the count is 5 but [levelPassed] is still false, so the regenerator
    returns that state as it is: level 1, multiplier 0.5, count 5. *)
Lemma level_completion_counterexample :
  let s := run initialState fiveGoals in
  sessionLive initialState fiveGoals = true
  /\ map (fun es => reachDestID (run initialState es))
         [toGoal [] 0;
          toGoal [] 0 ++ toGoal (presses 5 moveLeft) 1;
          toGoal [] 0 ++ toGoal (presses 5 moveLeft) 1
            ++ toGoal (presses 3 moveLeft) 2;
          fourGoals; fiveGoals]
     = ["end2"; "end0"; "end1"; "end3"; "end4"]%string
  /\ reachDestCount s == 5
  /\ levelPassed s = false
  /\ newGameState s = s
  /\ level (newGameState s) == 1
  /\ ~ level (newGameState s) == level s + 1
  /\ ~ reachDestCount (newGameState s) == 0.
Proof.
  by_evaluation; intro H; vm_compute in H; discriminate.
Qed.

(** C7 (amended): the tick on which the fifth goal zone is reached brings
    the count to 5 and leaves [levelPassed] false; the next tick, whatever
    key presses come in between, sets [levelPassed]; and provided that tick
    does not also raise [gameOver], the regenerator applied to its result
    yields the previous level plus 1, the previous multiplier plus 0.1, a
    count of 0, and the scores and lives of that result. *)
Theorem level_completion
    (u u' : number) (s : State) (t t' : number)
    (keys : list (number * Event)) :
  reachDestCount s == 4 ->
  collidedEnd (tickMoved u s t) <> [] ->
  onlyMoves keys = true ->
  let s1 := reduceState u s (Tick t) in
  let s2 := reduceState u' (run s1 keys) (Tick t') in
  gameOver s2 = false ->
  reachDestCount s1 == 5
  /\ levelPassed s1 = false
  /\ levelPassed s2 = true
  /\ level (newGameState s2) = level s + 1
  /\ levelMultiplier (newGameState s2) = levelMultiplier s + (1#10)
  /\ reachDestCount (newGameState s2) = 0
  /\ destScore (newGameState s2) = destScore s2
  /\ fliesScore (newGameState s2) = fliesScore s2
  /\ moveScore (newGameState s2) = moveScore s2
  /\ totalScore (newGameState s2) = totalScore s2
  /\ livesCount (newGameState s2) = livesCount s2.
Proof.
  intros Hfour Hgoal Hkeys s1 s2 Hgo.
  destruct (collidedEnd_head _ Hgoal) as [d [rest [_ [_ [_ Hlen]]]]].
  assert (Hcount : reachDestCount s1 == 5).
  { unfold s1. cbn [reduceState]. unfold tick.
    rewrite (proj1 (proj2 (handleCollisions_goal_fields _)) Hlen).
    cbn [tickMoved reachDestCount]. rewrite Hfour. reflexivity. }
  assert (Hlp1 : levelPassed s1 = false).
  { unfold s1. cbn [reduceState]. rewrite tick_levelPassed.
    apply num_eq_false. rewrite Hfour. intro H; discriminate. }
  destruct (run_moves_frame keys s1 Hkeys) as [Hk1 [Hk2 [Hk3 _]]].
  assert (Hlp2 : levelPassed s2 = true).
  { unfold s2. cbn [reduceState]. rewrite tick_levelPassed.
    apply num_eq_true. rewrite Hk1. exact Hcount. }
  destruct (newGameState_levelPassed s2 Hgo Hlp2)
    as [Hl [Hm [Hc [Hd [Hf [Hmv [Ht Hlv]]]]]]].
  assert (Hlevel : level s2 = level s /\ levelMultiplier s2 = levelMultiplier s).
  { unfold s2. cbn [reduceState].
    destruct (tick_frame u' (run s1 keys) t') as [F1 F2].
    rewrite F1, F2, Hk2, Hk3. unfold s1. cbn [reduceState].
    apply tick_frame. }
  destruct Hlevel as [Hl2 Hm2].
  rewrite Hl2 in Hl. rewrite Hm2 in Hm.
  split_conj; assumption.
Qed.

(** C7 (amended) on the session that reaches the five goal zones from the
    initial state, with one key press between the last two ticks: the
    regenerator then yields level 2 and multiplier 0.6. *)
Lemma level_completion_witness :
  level
    (newGameState
       (reduceState 0
          (run (reduceState 0
                  (run initialState
                       (fourGoals ++ presses 10 moveUp
                        ++ presses 5 moveRight))
                  (Tick 4))
               [(0, moveLeft)])
          (Tick 5)))
  = level (run initialState
               (fourGoals ++ presses 10 moveUp ++ presses 5 moveRight)) + 1.
Proof.
  apply (level_completion 0 0
           (run initialState
                (fourGoals ++ presses 10 moveUp ++ presses 5 moveRight))
           4 5 [(0, moveLeft)]).
  - vm_compute; reflexivity.
  - vm_compute; discriminate.
  - reflexivity.
  - vm_compute; reflexivity.
Defined.

(** ** Game-over reset *)

(** C8, as stated, fails.  After the third death the lives are 0 but
    [gameOver] is not raised yet (nor is [levelPassed]); the regenerator
    tests the flag, not the lives, and returns the state as it is, with 0
    lives and the scores earned so far. *)
Lemma game_over_reset_counterexample :
  let s := run initialState threeDeaths in
  livesCount s == 0
  /\ gameOver s = false
  /\ newGameState s = s
  /\ ~ livesCount (newGameState s) == 3
  /\ ~ moveScore (newGameState s) == 0.
Proof.
  by_evaluation; intro H; vm_compute in H; discriminate.
Qed.

(** C8 (amended): for every state whose [gameOver] flag is set, the
    regenerator returns level 1, multiplier 0.5, 3 lives, the four score
    fields at 0, both flags cleared, and the high score of its argument. *)
Theorem game_over_reset (s : State) :
  gameOver s = true ->
  level (newGameState s) = 1
  /\ levelMultiplier (newGameState s) = 1#2
  /\ livesCount (newGameState s) = 3
  /\ destScore (newGameState s) = 0
  /\ fliesScore (newGameState s) = 0
  /\ moveScore (newGameState s) = 0
  /\ totalScore (newGameState s) = 0
  /\ gameOver (newGameState s) = false
  /\ levelPassed (newGameState s) = false
  /\ highScore (newGameState s) = highScore s.
Proof.
  intro Hgo. unfold newGameState. rewrite Hgo. repeat split.
Qed.

(** C8 (amended) one tick after the third death: 0 lives, flag raised. *)
Lemma game_over_reset_witness :
  livesCount (run initialState (threeDeaths ++ [(0, Tick 3)])) == 0
  /\ livesCount
       (newGameState (run initialState (threeDeaths ++ [(0, Tick 3)]))) = 3.
Proof.
  split; [vm_compute; reflexivity|].
  apply (game_over_reset (run initialState (threeDeaths ++ [(0, Tick 3)]))).
  vm_compute; reflexivity.
Defined.

(** * Further properties of the engine *)

(** ** Geometry *)

Lemma borderBlock_cases (c : number) :
  (c <= 0 /\ borderBlock c = c + 50)
  \/ (0 < c /\ Constants.CANVAS_HEIGHT <= c /\ borderBlock c = c - 50)
  \/ (0 < c /\ c < Constants.CANVAS_HEIGHT /\ borderBlock c = c).
Proof.
  unfold borderBlock.
  num_case (num_le c 0); [left; split; [exact E|reflexivity]|].
  num_case (num_ge c Constants.CANVAS_HEIGHT).
  - right; left. split_conj; try assumption. reflexivity.
  - right; right. split_conj; try assumption. reflexivity.
Qed.

(** [borderBlock] brings any vertical position less than one row (50)
    outside the canvas strictly inside it, and applying it again changes
    nothing: unlike [torusWrap], it has no fixed-point trouble at the
    edges. *)
Theorem borderBlock_inside (c : number) :
  -50 < c < Constants.CANVAS_HEIGHT + 50 ->
  0 < borderBlock c < Constants.CANVAS_HEIGHT
  /\ borderBlock (borderBlock c) = borderBlock c.
Proof.
  intros [Hlo Hhi].
  assert (Hin : 0 < borderBlock c < Constants.CANVAS_HEIGHT).
  { destruct (borderBlock_cases c) as [[H0 Hb]|[[H0 [H1 Hb]]|[H0 [H1 Hb]]]];
      rewrite Hb; unfold Constants.CANVAS_HEIGHT in *; lra. }
  split; [exact Hin|].
  destruct (borderBlock_cases (borderBlock c))
    as [[H0 Hb]|[[H0 [H1 Hb]]|[H0 [H1 Hb]]]]; [lra|lra|exact Hb].
Qed.

(** [borderBlock_inside] at the top edge (0 is pushed down to 50) and one
    row above it. *)
Lemma borderBlock_inside_witness :
  0 < borderBlock 0 /\ borderBlock (borderBlock (-40)) = borderBlock (-40).
Proof.
  split.
  - apply (borderBlock_inside 0). split; vm_compute; reflexivity.
  - apply (borderBlock_inside (-40)). split; vm_compute; reflexivity.
Defined.

(** One tick of motion keeps an entity on the canvas horizontally, in
    [0, width], as long as it starts there and its step is at most one
    canvas width; it never changes the entity's identity, size or velocity,
    and leaves its row alone when that row is strictly inside the canvas. *)
Theorem moveBody_stays_on_canvas (o : Body) (s : State) :
  0 <= x o <= Constants.CANVAS_WIDTH ->
  - Constants.CANVAS_WIDTH <= velX o * levelMultiplier s
    <= Constants.CANVAS_WIDTH ->
  0 <= x (moveBody o s) <= Constants.CANVAS_WIDTH
  /\ id (moveBody o s) = id o
  /\ width (moveBody o s) = width o
  /\ height (moveBody o s) = height o
  /\ velX (moveBody o s) = velX o
  /\ (0 < y o < Constants.CANVAS_HEIGHT -> y (moveBody o s) = y o).
Proof.
  intros [Hx0 Hx1] [Hd0 Hd1].
  split_conj; try reflexivity.
  - cbn [moveBody x]. set (d := velX o * levelMultiplier s) in *.
    destruct (torusWrap_cases (x o + d))
      as [[H0 Hw]|[[H0 [H1 Hw]]|[H0 [H1 Hw]]]];
      rewrite Hw; unfold Constants.CANVAS_WIDTH in *; lra.
  - cbn [moveBody x]. set (d := velX o * levelMultiplier s) in *.
    destruct (torusWrap_cases (x o + d))
      as [[H0 Hw]|[[H0 [H1 Hw]]|[H0 [H1 Hw]]]];
      rewrite Hw; unfold Constants.CANVAS_WIDTH in *; lra.
  - intros [Hy0 Hy1]. cbn [moveBody y].
    destruct (borderBlock_cases (y o))
      as [[H0 Hb]|[[H0 [H1 Hb]]|[H0 [H1 Hb]]]]; [lra|lra|exact Hb].
Qed.

(** [moveBody_stays_on_canvas] for the first vehicle of the starting layout,
    which sits on the left edge and drives left: it re-enters from the
    right. *)
Lemma moveBody_stays_on_canvas_witness :
  0 <= x (moveBody (nth 0 startVehicles createFrog) initialState)
    <= Constants.CANVAS_WIDTH.
Proof.
  apply (moveBody_stays_on_canvas
           (nth 0 startVehicles createFrog) initialState).
  - split; vm_compute; discriminate.
  - split; vm_compute; discriminate.
Defined.

(** ** Overlap *)

(** The overlap test is a containment test vertically: the first body must
    lie within the vertical extent of the second.  So a body never overlaps
    a shorter one, and two bodies of the same height (the frog and every
    vehicle, plank and crocodile part) overlap only when they are on the
    very same row. *)
Theorem bodiesCollided_vertical (a b : Body) :
  bodiesCollided a b = true ->
  y b <= y a
  /\ y a + height a <= y b + height b
  /\ height a <= height b
  /\ (height a == height b -> y a == y b).
Proof.
  unfold bodiesCollided. intro H.
  apply andb_prop in H. destruct H as [H Hy].
  apply andb_prop in H. destruct H as [_ Hyh].
  apply num_ge_true in Hy. apply num_le_true in Hyh.
  split_conj; try assumption; [lra|intro Heq; lra].
Qed.

(** [bodiesCollided_vertical] for the frog standing in the second road lane
    over the vehicle that starts under it. *)
Lemma bodiesCollided_vertical_witness :
  y (frog (tickMoved 0 (run initialState [(0, moveUp)]) 0))
  == y (nth 1 (vehicles3 (tickMoved 0 (run initialState [(0, moveUp)]) 0))
            createFrog).
Proof.
  apply (bodiesCollided_vertical
           (frog (tickMoved 0 (run initialState [(0, moveUp)]) 0))
           (nth 1 (vehicles3 (tickMoved 0 (run initialState [(0, moveUp)]) 0))
                createFrog)).
  - vm_compute; reflexivity.
  - vm_compute; reflexivity.
Defined.

(** ** The frog after collision resolution *)

Lemma handleCollisions_frog (s : State) :
  x (frog (handleCollisions s)) =
    (if (0 <? List.length (collidedEnd s))%nat || collidedDeath s
     then Constants.FROG_START_X else x (frog s))
  /\ y (frog (handleCollisions s)) =
    (if (0 <? List.length (collidedEnd s))%nat || collidedDeath s
     then Constants.FROG_START_Y
     else if collidedFinalZone s || (0 <? List.length (collidedBlocks s))%nat
          then y (frog s) + 50 else y (frog s))
  /\ velX (frog (handleCollisions s)) =
    (if (0 <? List.length (collidedPlanks s))%nat
     then head_velX (collidedPlanks s) else 0).
Proof. split_conj; reflexivity. Qed.

Lemma collidedDeath_sides (s : State) :
  collidedDeath s = false -> 0 < x (frog s) < Constants.CANVAS_WIDTH.
Proof.
  unfold collidedDeath. intro H.
  apply orb_false_elim in H. destruct H as [H _].
  apply orb_false_elim in H. destruct H as [H _].
  apply orb_false_elim in H. destruct H as [_ H].
  unfold collidedSides in H. apply orb_false_elim in H.
  destruct H as [Hr Hl].
  apply num_ge_false in Hr. apply num_le_false in Hl. split; assumption.
Qed.

(** A frog that survives collision resolution without reaching a goal was
    strictly between the side edges; so after every collision resolution
    the frog is strictly inside the canvas horizontally.  And it is never
    left resting in the goal row: provided it was below the top edge, it
    ends below y = 50, pushed back by one row if need be. *)
Theorem frog_after_resolution (s : State) :
  0 < x (frog (handleCollisions s)) < Constants.CANVAS_WIDTH
  /\ (0 < y (frog s) -> 50 < y (frog (handleCollisions s))).
Proof.
  destruct (handleCollisions_frog s) as [Hx [Hy _]]. rewrite Hx, Hy.
  destruct ((0 <? List.length (collidedEnd s))%nat) eqn:Hend; cbn [orb].
  - split; [split; vm_compute; reflexivity|intros _; vm_compute; reflexivity].
  - destruct (collidedDeath s) eqn:Hdeath.
    + split; [split; vm_compute; reflexivity|intros _; vm_compute; reflexivity].
    + split; [apply collidedDeath_sides; exact Hdeath|].
      intro Hpos. unfold collidedFinalZone.
      apply Nat.ltb_ge in Hend. apply Nat.leb_le in Hend. rewrite Hend.
      rewrite andb_true_r.
      num_case (num_le (y (frog s)) 50); cbn [orb]; [lra|].
      destruct ((0 <? List.length (collidedBlocks s))%nat); lra.
Qed.

(** [frog_after_resolution] for a frog that stepped into the goal row
    between two goal zones (at x = 100): it is pushed back to the row
    below. *)
Lemma frog_after_resolution_witness :
  collidedEnd (run initialState (presses 10 moveUp ++ presses 4 moveLeft))
  = []
  /\ 50 < y (frog (handleCollisions
                     (run initialState
                          (presses 10 moveUp ++ presses 4 moveLeft)))).
Proof.
  split; [vm_compute; reflexivity|].
  apply (frog_after_resolution
           (run initialState (presses 10 moveUp ++ presses 4 moveLeft))).
  vm_compute; reflexivity.
Defined.

(** Whatever kills the frog (a vehicle, a side edge, the river, a crocodile
    head), collision resolution puts it back on the start position and takes
    exactly one life. *)
Theorem death_repositions_frog (s : State) :
  collidedDeath s = true ->
  x (frog (handleCollisions s)) = Constants.FROG_START_X
  /\ y (frog (handleCollisions s)) = Constants.FROG_START_Y
  /\ livesCount (handleCollisions s) = livesCount s - 1.
Proof.
  intro Hdeath. destruct (handleCollisions_frog s) as [Hx [Hy _]].
  rewrite Hx, Hy. unfold handleCollisions. cbn [livesCount].
  rewrite Hdeath, orb_true_r. split_conj; reflexivity.
Qed.

(** [death_repositions_frog] for the frog in the river beside the planks. *)
Lemma death_repositions_frog_witness :
  livesCount
    (handleCollisions
       (tickMoved 0 (run initialState (presses 6 moveUp ++ presses 3 moveLeft))
                  0))
  = livesCount
      (tickMoved 0 (run initialState (presses 6 moveUp ++ presses 3 moveLeft))
                 0) - 1.
Proof.
  apply (death_repositions_frog
           (tickMoved 0
              (run initialState (presses 6 moveUp ++ presses 3 moveLeft)) 0)).
  vm_compute; reflexivity.
Defined.

(** A frog that overlaps a plank or the crocodile's body takes the velocity
    of the first support it overlaps (planks before crocodile), is not in
    the river, and is carried by that velocity times the level multiplier,
    before wrap-around, on the next tick.  Without any support under it, its
    velocity is reset to 0. *)
Theorem support_carries_frog (s : State) :
  (collidedPlanks s <> [] ->
   exists p rest,
     collidedPlanks s = p :: rest
     /\ bodiesCollided (frog s) p = true
     /\ velX (frog (handleCollisions s)) = velX p
     /\ collidedRiver s = false
     /\ forall u t,
          x (frog (tickMoved u (handleCollisions s) t)) =
          torusWrap (x (frog (handleCollisions s))
                     + velX p * levelMultiplier s))
  /\ (collidedPlanks s = [] -> velX (frog (handleCollisions s)) = 0).
Proof.
  destruct (handleCollisions_frog s) as [_ [_ Hv]].
  split.
  - intro Hne. destruct (collidedPlanks s) as [|p rest] eqn:E; [congruence|].
    exists p, rest.
    assert (Hvp : velX (frog (handleCollisions s)) = velX p).
    { rewrite Hv. reflexivity. }
    split_conj; try reflexivity; try assumption.
    + assert (Hin : In p (collidedPlanks s)) by (rewrite E; left; reflexivity).
      unfold collidedPlanks in Hin. apply in_flat_map in Hin.
      destruct Hin as [lane [_ Hin]]. apply filter_In in Hin. apply Hin.
    + unfold collidedRiver. rewrite E. cbn. apply andb_false_r.
    + intros u t. cbn [tickMoved frog moveBody x]. rewrite Hvp. reflexivity.
  - intro Hnil. rewrite Hv, Hnil. reflexivity.
Qed.

(** [support_carries_frog] for the frog on the plank that starts at
    x = 200 in the first river lane: it takes that plank's velocity 1. *)
Lemma support_carries_frog_witness :
  exists p rest,
    collidedPlanks (tickMoved 0 (run initialState (presses 6 moveUp)) 0)
    = p :: rest
    /\ velX (frog (handleCollisions
                     (tickMoved 0 (run initialState (presses 6 moveUp)) 0)))
       = velX p.
Proof.
  destruct (support_carries_frog
              (tickMoved 0 (run initialState (presses 6 moveUp)) 0))
    as [Hcarry _].
  destruct Hcarry as [p [rest [E [_ [Hv _]]]]].
  - vm_compute; discriminate.
  - exists p, rest. split; assumption.
Defined.

(** ** Entities across a session *)

Lemma map_id_moveBody (s : State) (l : list Body) :
  map id (map (fun b => moveBody b s) l) = map id l.
Proof. rewrite map_map. apply map_ext. intro b. reflexivity. Qed.

Lemma map_id_shifted (r : string) (l : list Body) :
  map id (map (fun b => if String.eqb (id b) r then shiftedUp b else b) l)
  = map id l.
Proof.
  rewrite map_map. apply map_ext. intro b.
  destruct (String.eqb (id b) r); reflexivity.
Qed.

Lemma entityIds_event (u : number) (s : State) (e : Event) :
  entityIds (reduceState u s e) = entityIds s.
Proof.
  destruct e as [t|dx dy sc|]; [|reflexivity|reflexivity].
  unfold entityIds, reduceState, tick, handleCollisions, tickMoved.
  cbn [frog fly vehicles vehicles2 vehicles3 vehicles4 planks planks2 planks3
       croc crocHead destinations blocks reachDestID id moveBody].
  rewrite !map_id_moveBody, map_id_shifted. reflexivity.
Qed.

Lemma entityIds_regenerate (s : State) :
  entityIds (newGameState s) = entityIds s
  \/ entityIds (newGameState s) = entityIds initialState.
Proof.
  unfold newGameState. destruct (gameOver s); [right; reflexivity|].
  destruct (levelPassed s); [right; reflexivity|left; reflexivity].
Qed.

(** No entity is ever created, destroyed or renamed: in every state of a
    session each collection holds the identifiers of the starting layout,
    in the same order, and all of them are distinct.  (The view looks its
    elements up by these identifiers.) *)
Theorem session_entities_fixed (s : State) :
  sessionState s ->
  entityIds s = entityIds initialState
  /\ NoDup (List.concat (entityIds s)).
Proof.
  intro Hs.
  assert (Hids : entityIds s = entityIds initialState).
  { induction Hs as [|u s e Hs IH Hgo Hlp|s Hs IH Hflag].
    - reflexivity.
    - rewrite entityIds_event. exact IH.
    - destruct (entityIds_regenerate s) as [H|H]; rewrite H;
        [exact IH|reflexivity]. }
  split; [exact Hids|]. rewrite Hids.
  assert (Hnd : nodup string_dec (List.concat (entityIds initialState))
                = List.concat (entityIds initialState))
    by (vm_compute; reflexivity).
  rewrite <- Hnd. apply NoDup_nodup.
Qed.

(** [session_entities_fixed] after the five crossings and the tick that
    raises [levelPassed]. *)
Lemma session_entities_fixed_witness :
  entityIds (run initialState (fiveGoals ++ [(0, Tick 5)]))
  = entityIds initialState.
Proof.
  apply (session_entities_fixed
           (run initialState (fiveGoals ++ [(0, Tick 5)]))).
  apply session_run; [apply session_start|vm_compute; reflexivity].
Defined.

(** ** Scores across a session *)

Lemma scoreInvariant_event (u : number) (s : State) (e : Event) :
  scoreInvariant s -> scoreInvariant (reduceState u s e).
Proof.
  intros [Hd [Hf [Hm [Ht Hsum]]]]. unfold scoreInvariant.
  destruct e as [t|dx dy sc|].
  - cbn [reduceState]. unfold tick.
    rewrite handleCollisions_fliesScore.
    unfold handleCollisions at 1 2 3 4 5 6.
    cbn [destScore moveScore totalScore tickMoved fliesScore].
    destruct ((0 <? List.length (collidedEnd (tickMoved u s t)))%nat);
      split_conj; try assumption; lra.
  - cbn [reduceState destScore fliesScore moveScore totalScore].
    destruct (sc && num_gt (y (frog s)) 100);
      split_conj; try assumption; lra.
  - cbn. split_conj; assumption.
Qed.

Lemma scoreInvariant_regenerate (s : State) :
  scoreInvariant s -> scoreInvariant (newGameState s).
Proof.
  intros Hinv. unfold newGameState.
  destruct (gameOver s).
  - unfold scoreInvariant. cbn. split_conj; lra.
  - destruct (levelPassed s); [|exact Hinv].
    destruct Hinv as [Hd [Hf [Hm [Ht Hsum]]]].
    unfold scoreInvariant. cbn. split_conj; assumption.
Qed.

Lemma session_scoreInvariant (s : State) :
  sessionState s -> scoreInvariant s.
Proof.
  induction 1 as [|u s e Hs IH Hgo Hlp|s Hs IH Hflag].
  - unfold scoreInvariant. cbn. split_conj; lra.
  - apply scoreInvariant_event; assumption.
  - apply scoreInvariant_regenerate; assumption.
Qed.

(** In every state of a session the total score is between 0 and the sum of
    the three accumulators (it may trail the sum, never exceed it), and no
    event ever lowers it: the displayed score only goes up until a game
    over resets it. *)
Theorem session_total_score_monotone (s : State) :
  sessionState s ->
  0 <= totalScore s <= destScore s + fliesScore s + moveScore s
  /\ forall u e,
       totalScore s <= totalScore (reduceState u s e)
       /\ destScore s <= destScore (reduceState u s e)
       /\ moveScore s <= moveScore (reduceState u s e).
Proof.
  intro Hs. destruct (session_scoreInvariant s Hs) as [Hd [Hf [Hm [Ht Hsum]]]].
  split; [split; assumption|].
  intros u e. destruct e as [t|dx dy sc|].
  - cbn [reduceState]. unfold tick, handleCollisions.
    cbn [destScore moveScore totalScore tickMoved fliesScore].
    destruct ((0 <? List.length (collidedEnd (tickMoved u s t)))%nat);
      split_conj; lra.
  - cbn [reduceState destScore moveScore totalScore].
    destruct (sc && num_gt (y (frog s)) 100); split_conj; lra.
  - cbn. split_conj; lra.
Qed.

(** [session_total_score_monotone] after the first goal, where the total
    (90) trails the sum of the accumulators (190). *)
Lemma session_total_score_monotone_witness :
  0 <= totalScore (run initialState (toGoal [] 0))
    <= destScore (run initialState (toGoal [] 0))
       + fliesScore (run initialState (toGoal [] 0))
       + moveScore (run initialState (toGoal [] 0)).
Proof.
  apply (session_total_score_monotone (run initialState (toGoal [] 0))).
  apply session_run; [apply session_start|vm_compute; reflexivity].
Defined.

(** The fly score is 0 in every state of a session: no event and no
    regeneration ever raises it. *)
Theorem session_flies_score_zero (s : State) :
  sessionState s -> fliesScore s == 0.
Proof.
  intro Hs. destruct (session_scoreInvariant s Hs) as [_ [Hf _]]. exact Hf.
Qed.

(** [session_flies_score_zero] right after the frog caught the fly. *)
Lemma session_flies_score_zero_witness :
  fliesScore (run initialState (flyCatch ++ [(0, Tick 501)])) == 0.
Proof.
  apply (session_flies_score_zero
           (run initialState (flyCatch ++ [(0, Tick 501)]))).
  apply session_run; [apply session_start|vm_compute; reflexivity].
Defined.

(** ** Level and goal count across a session *)

Lemma levelInvariant_fresh (s : State) :
  level s = 1 -> levelMultiplier s = (1#2) -> levelInvariant s.
Proof.
  intros Hl Hm. exists 1%Z. rewrite Hl, Hm.
  split; [lia|]. split; [reflexivity|].
  split; [apply Qle_refl|]. split; [reflexivity|lia].
Qed.

Lemma levelInvariant_regenerate (s : State) :
  levelInvariant s -> levelInvariant (newGameState s).
Proof.
  intros Hinv. unfold newGameState.
  destruct (gameOver s); [apply levelInvariant_fresh; reflexivity|].
  destruct (levelPassed s); [|exact Hinv].
  destruct Hinv as [n [Hn [Hl [Hbase _]]]].
  exists (n + 1)%Z. cbn [level levelMultiplier].
  split; [lia|]. split; [rewrite inject_Z_plus, Hl; reflexivity|].
  split; [lra|]. split; [lia|]. intros _. lra.
Qed.

Lemma session_levelInvariant (s : State) :
  sessionState s -> levelInvariant s.
Proof.
  induction 1 as [|u s e Hs IH Hgo Hlp|s Hs IH Hflag].
  - apply levelInvariant_fresh; reflexivity.
  - destruct IH as [n Hinv]. exists n. destruct e; exact Hinv.
  - apply levelInvariant_regenerate; exact IH.
Qed.

(** In every state of a session the level is a whole number from 1 on; the
    speed multiplier is never below its base 0.5, equals the base at level
    1 and is above it at every higher level; and no event changes the level
    or the multiplier: only the regenerator does, adding one level and 0.1
    after a passed level, going back to level 1 and 0.5 after a game
    over. *)
Theorem session_level_multiplier (s : State) :
  sessionState s ->
  (exists n : Z, (1 <= n)%Z /\ level s == inject_Z n)
  /\ (1#2) <= levelMultiplier s
  /\ (level s == 1 -> levelMultiplier s == (1#2))
  /\ (~ level s == 1 -> (1#2) < levelMultiplier s)
  /\ forall u e,
       level (reduceState u s e) = level s
       /\ levelMultiplier (reduceState u s e) = levelMultiplier s.
Proof.
  intro Hs.
  destruct (session_levelInvariant s Hs) as [n [Hn [Hl [Hbase [Hone Hup]]]]].
  split; [exists n; auto|]. split; [exact Hbase|]. split_conj.
  - intro H1. apply Hone. rewrite Hl in H1. change 1 with (inject_Z 1) in H1.
    rewrite inject_Z_injective in H1. exact H1.
  - intro H1. apply Hup.
    assert (n <> 1%Z).
    { intro Hn1. apply H1. rewrite Hl, Hn1. reflexivity. }
    lia.
  - intros u e. destruct e; split; reflexivity.
Qed.

(** [session_level_multiplier] in the second level, reached through the
    five crossings: the multiplier is above 0.5. *)
Lemma session_level_multiplier_witness :
  (1#2) < levelMultiplier
            (newGameState (run initialState (fiveGoals ++ [(0, Tick 5)]))).
Proof.
  apply (session_level_multiplier
           (newGameState (run initialState (fiveGoals ++ [(0, Tick 5)])))).
  - apply session_regenerate; [|vm_compute; reflexivity].
    apply session_run; [apply session_start|vm_compute; reflexivity].
  - intro H; vm_compute in H; discriminate.
Defined.

Lemma tick_reachDestCount (u : number) (s : State) (t : number) :
  reachDestCount (tick u s t) =
  if (0 <? List.length (collidedEnd (tickMoved u s t)))%nat
  then reachDestCount s + 1 else reachDestCount s.
Proof. reflexivity. Qed.

Lemma inject_Z_succ (n : Z) (q : number) :
  q == inject_Z n -> q + 1 == inject_Z (n + 1).
Proof. intro H. rewrite H, inject_Z_plus. reflexivity. Qed.

Lemma goalCountInvariant_event (u : number) (s : State) (e : Event) :
  goalCountInvariant s -> levelPassed s = false ->
  goalCountInvariant (reduceState u s e).
Proof.
  intros [n [Hn [Hrange [Hdown Hup]]]] Hlp. specialize (Hdown Hlp).
  destruct e as [t|dx dy sc|].
  - cbn [reduceState]. unfold goalCountInvariant.
    rewrite tick_levelPassed, tick_reachDestCount.
    assert (Hfive : num_eq (reachDestCount s) 5 = true <-> n = 5%Z).
    { rewrite num_eq_true, Hn. change 5 with (inject_Z 5).
      rewrite inject_Z_injective. reflexivity. }
    destruct (num_eq (reachDestCount s) 5) eqn:E.
    + assert (n = 5%Z) by (apply Hfive; reflexivity).
      destruct ((0 <? List.length (collidedEnd (tickMoved u s t)))%nat).
      * exists (n + 1)%Z. split; [apply inject_Z_succ; exact Hn|].
        split_conj; try lia; intros; lia.
      * exists n. split; [exact Hn|]. split_conj; try lia; intros; lia.
    + assert (n <> 5%Z) by (intro H5; apply Hfive in H5; discriminate).
      destruct ((0 <? List.length (collidedEnd (tickMoved u s t)))%nat).
      * exists (n + 1)%Z. split; [apply inject_Z_succ; exact Hn|].
        split_conj; try lia; intros; try lia; discriminate.
      * exists n. split; [exact Hn|].
        split_conj; try lia; intros; try lia; discriminate.
  - exists n. cbn. rewrite Hlp.
    split; [exact Hn|]. split_conj; try lia; intros; try lia; discriminate.
  - exists n. cbn. rewrite Hlp.
    split; [exact Hn|]. split_conj; try lia; intros; try lia; discriminate.
Qed.

Lemma goalCountInvariant_fresh (s : State) :
  reachDestCount s = 0 -> levelPassed s = false -> goalCountInvariant s.
Proof.
  intros Hc Hlp. exists 0%Z. rewrite Hc, Hlp.
  split; [reflexivity|]. split_conj; try lia; intros; try lia; discriminate.
Qed.

Lemma goalCountInvariant_regenerate (s : State) :
  goalCountInvariant s -> goalCountInvariant (newGameState s).
Proof.
  intro Hinv. unfold newGameState. destruct (gameOver s).
  - apply goalCountInvariant_fresh; reflexivity.
  - destruct (levelPassed s); [|exact Hinv].
    apply goalCountInvariant_fresh; reflexivity.
Qed.

(** In every state of a session the goal count is a whole number from 0 to
    6.  It is at most 5 while [levelPassed] is false, and [levelPassed] is
    true only with a count of 5 or 6: the flag is raised by the tick after
    the fifth goal, and that tick can still count one more goal. *)
Theorem session_goal_count (s : State) :
  sessionState s ->
  exists n : Z,
    reachDestCount s == inject_Z n /\ (0 <= n <= 6)%Z
    /\ (levelPassed s = false -> (n <= 5)%Z)
    /\ (levelPassed s = true -> (5 <= n)%Z).
Proof.
  intro Hs. change (goalCountInvariant s).
  induction Hs as [|u s e Hs IH Hgo Hlp|s Hs IH Hflag].
  - apply goalCountInvariant_fresh; reflexivity.
  - apply goalCountInvariant_event; assumption.
  - apply goalCountInvariant_regenerate; exact IH.
Qed.

(** [session_goal_count] after the five crossings (count 5, flag down); a
    sixth crossing before the next tick is counted too, on the tick that
    raises the flag, so the bound 6 is reached. *)
Lemma session_goal_count_witness :
  (exists n : Z,
      reachDestCount (run initialState fiveGoals) == inject_Z n
      /\ (0 <= n <= 6)%Z)
  /\ reachDestCount
       (run initialState (fiveGoals ++ toGoal (presses 5 moveRight) 5)) == 6.
Proof.
  split; [|vm_compute; reflexivity].
  destruct (session_goal_count (run initialState fiveGoals))
    as [n [Hn [Hrange _]]].
  - apply session_run; [apply session_start|vm_compute; reflexivity].
  - exists n. split; assumption.
Defined.

(** ** The regenerator *)

(** The regenerator always returns a state with both terminal flags down;
    it is the identity on such states, hence idempotent. *)
Theorem newGameState_clears_flags (s : State) :
  gameOver (newGameState s) = false
  /\ levelPassed (newGameState s) = false
  /\ (gameOver s = false -> levelPassed s = false -> newGameState s = s)
  /\ newGameState (newGameState s) = newGameState s.
Proof.
  assert (Hflags : gameOver (newGameState s) = false
                   /\ levelPassed (newGameState s) = false).
  { unfold newGameState. destruct (gameOver s) eqn:Hgo; [split; reflexivity|].
    destruct (levelPassed s) eqn:Hlp; [split; reflexivity|].
    split; assumption. }
  destruct Hflags as [Hgo Hlp].
  split_conj; try assumption.
  - intros H1 H2. unfold newGameState. rewrite H1, H2. reflexivity.
  - unfold newGameState at 1. rewrite Hgo, Hlp. reflexivity.
Qed.

(** [newGameState_clears_flags] on the initial state. *)
Lemma newGameState_clears_flags_witness :
  newGameState initialState = initialState.
Proof.
  apply (newGameState_clears_flags initialState); reflexivity.
Defined.

(** A restart request followed by regeneration gives, from any state
    whatever, the initial state but for the high score, which is kept: the
    restart only raises the flag the regenerator tests. *)
Theorem restart_then_regenerate (u : number) (s : State) :
  newGameState (reduceState u s Restart) = freshGame (highScore s)
  /\ freshGame 0 = initialState.
Proof. split; reflexivity. Qed.

(** ** The fly's respawn *)

Lemma random_index_in_range (u : number) :
  0 <= u /\ u < 1 ->
  (Z.to_nat
     (Math_floor (u * inject_Z (Z.of_nat Constants.DESTINATION_COUNT))%Q)
   < List.length x_dests)%nat.
Proof.
  intros [H0 H1]. unfold Math_floor.
  change (inject_Z (Z.of_nat Constants.DESTINATION_COUNT)) with 5.
  assert (Hlo : (0 <= Qfloor (u * 5))%Z).
  { change 0%Z with (Qfloor 0). apply Qfloor_resp_le. lra. }
  assert (Hhi : (Qfloor (u * 5) < 5)%Z).
  { rewrite Zlt_Qlt. apply Qle_lt_trans with (u * 5); [apply Qfloor_le|].
    change (inject_Z 5) with 5. lra. }
  change (List.length x_dests) with 5%nat. lia.
Qed.

(** On a tick whose starting counter is a positive multiple of 500 the fly
    is put 20 to the right of the left edge of one of the five goal zones,
    for every draw of [Math.random] (0 <= u < 1): the index computed from
    the draw is always within the table.  On any other tick the motion step
    leaves the fly where it is. *)
Theorem fly_respawns_in_a_goal (u : number) (s : State) (t : number) :
  0 <= u /\ u < 1 ->
  (num_rem (time s) 500 == 0 -> ~ time s == 0 ->
   exists d, In d x_dests /\ x (fly (tickMoved u s t)) = d + 20)
  /\ (~ num_rem (time s) 500 == 0 \/ time s == 0 ->
      x (fly (tickMoved u s t)) = x (fly s))
  /\ y (fly (tickMoved u s t)) = y (fly s).
Proof.
  intro Hu. cbn [tickMoved fly x y]. split_conj; [| |reflexivity].
  - intros Hrem Htime.
    apply num_eq_true in Hrem. apply num_eq_false in Htime.
    rewrite Hrem, Htime. cbn [negb andb].
    eexists. split; [|reflexivity].
    unfold at_index. apply nth_In. apply random_index_in_range. exact Hu.
  - intros [Hrem|Htime].
    + apply num_eq_false in Hrem. rewrite Hrem. reflexivity.
    + apply num_eq_true in Htime. rewrite Htime, andb_false_r. reflexivity.
Qed.

(** [fly_respawns_in_a_goal] for the draw 0.7 on the tick after counter
    500: the fly goes to the fourth goal zone, x = 420. *)
Lemma fly_respawns_in_a_goal_witness :
  exists d,
    In d x_dests
    /\ x (fly (tickMoved (7#10) (run initialState [(0, Tick 500)]) 501))
       = d + 20.
Proof.
  apply (fly_respawns_in_a_goal
           (7#10) (run initialState [(0, Tick 500)]) 501).
  - split; vm_compute; [discriminate|reflexivity].
  - vm_compute; reflexivity.
  - intro H; vm_compute in H; discriminate.
Defined.

(** ** Key presses *)

Lemma withFrogAt_self (s : State) :
  withFrogAt s (x (frog s)) (y (frog s)) (moveScore s) = s.
Proof.
  destruct s as [? f ? ? ? ? ? ? ? ? ? ? ? ? ? ? ? ? ? ? ? ? ? ? ? ?].
  destruct f. reflexivity.
Qed.

(** A stream of key presses, with no tick in it, writes nothing but the
    frog's position and the movement score: the frog ends exactly where the
    presses add up to, with no wrap-around, push-back or collision, and each
    press adds 0 or 10 to the movement score. *)
Theorem key_presses_only_move_frog (es : list (number * Event)) :
  forall s, onlyMoves es = true ->
    run s es = withFrogAt s (x (frog (run s es))) (y (frog (run s es)))
                          (moveScore (run s es))
    /\ x (frog (run s es)) == x (frog s) + requestedDx es
    /\ y (frog (run s es)) == y (frog s) + requestedDy es
    /\ moveScore s <= moveScore (run s es)
       <= moveScore s + 10 * inject_Z (Z.of_nat (List.length es)).
Proof.
  induction es as [|[u e] es IH]; intros s Hm.
  - cbn [run fold_left requestedDx requestedDy List.length].
    rewrite withFrogAt_self. change (inject_Z (Z.of_nat 0)) with 0.
    split_conj; try reflexivity; lra.
  - simpl in Hm. apply andb_prop in Hm. destruct Hm as [He Hm].
    destruct e as [t|dx dy sc|]; try discriminate.
    change (run s ((u, Move dx dy sc) :: es))
      with (run (reduceState u s (Move dx dy sc)) es).
    destruct (IH (reduceState u s (Move dx dy sc)) Hm)
      as [Hframe [Hx [Hy [Hlo Hhi]]]].
    assert (Hstep : moveScore (reduceState u s (Move dx dy sc)) =
                    if sc && num_gt (y (frog s)) 100
                    then moveScore s + 10 else moveScore s) by reflexivity.
    rewrite Hstep in Hlo, Hhi.
    split_conj.
    + rewrite Hframe at 1. reflexivity.
    + rewrite Hx. cbn [reduceState frog x requestedDx]. ring.
    + rewrite Hy. cbn [reduceState frog y requestedDy]. ring.
    + destruct (sc && num_gt (y (frog s)) 100); lra.
    + change (List.length ((u, Move dx dy sc) :: es)) with (S (List.length es)).
      rewrite Nat2Z.inj_succ. unfold Z.succ. rewrite inject_Z_plus.
      change (inject_Z 1) with 1.
      destruct (sc && num_gt (y (frog s)) 100); lra.
Qed.

(** [key_presses_only_move_frog] for ten steps up from the start: the frog
    is 500 higher and the last step, taken from the row at y = 60, does not
    score. *)
Lemma key_presses_only_move_frog_witness :
  y (frog (run initialState (presses 10 moveUp)))
  == y (frog initialState) + requestedDy (presses 10 moveUp)
  /\ moveScore (run initialState (presses 10 moveUp)) == 90.
Proof.
  split; [|vm_compute; reflexivity].
  apply (key_presses_only_move_frog (presses 10 moveUp) initialState).
  reflexivity.
Defined.

(** One key-down event produces at most one event of the reducer: none when
    it is an auto-repeat or not one of the five keys, otherwise the event of
    its key.  The five filtered streams never fire together. *)
Theorem keyEvents_dispatch (ev : KeyboardEvent) :
  (List.length (keyEvents ev) <= 1)%nat
  /\ keyEvents ev =
     if repeat_flag ev then []
     else if String.eqb (code ev) "ArrowUp" then [moveUp]
     else if String.eqb (code ev) "ArrowDown" then [moveDown]
     else if String.eqb (code ev) "ArrowLeft" then [moveLeft]
     else if String.eqb (code ev) "ArrowRight" then [moveRight]
     else if String.eqb (code ev) "KeyR" then [Restart]
     else [].
Proof.
  destruct ev as [c r].
  unfold keyEvents, moveUp_stream, moveDown_stream, moveLeft_stream,
    moveRight_stream, restart_stream, keyObservable.
  cbn [code repeat_flag].
  destruct r; cbn [negb].
  - repeat match goal with
           | |- context [String.eqb c ?k] => destruct (String.eqb c k)
           end; split; cbn; try reflexivity; lia.
  - destruct (String.eqb_spec c "ArrowUp") as [->|_];
      [split; cbn; [lia|reflexivity]|].
    destruct (String.eqb_spec c "ArrowDown") as [->|_];
      [split; cbn; [lia|reflexivity]|].
    destruct (String.eqb_spec c "ArrowLeft") as [->|_];
      [split; cbn; [lia|reflexivity]|].
    destruct (String.eqb_spec c "ArrowRight") as [->|_];
      [split; cbn; [lia|reflexivity]|].
    destruct (String.eqb c "KeyR"); split; cbn; try reflexivity; lia.
Qed.
